(** * Stripe route services: webhook dispatch and find-or-create customer flows

    A shallow embedding of the request handlers of
    [apps/api/src/routes/stripe/stripeServices.ts] (exported through
    [stripeRoute.ts]).  Every handler is an Express callback
    [(req, res, next) => ...] that talks to the Stripe client, writes to the
    response object and may call [next(error)].  The handlers are modelled in
    a state-and-exception monad over a world that carries the provider state,
    the clock and a chronological trace of every observable effect. *)

From Stdlib Require Import String Ascii List ZArith Bool Lia.
From stdpp Require Import base strings gmap.
Import ListNotations.

Local Open Scope Z_scope.
Local Open Scope string_scope.
Local Open Scope list_scope.

(** ** JavaScript values found in a parsed request body *)

Module Js.

(** A member of [req.body]: absent ([undefined]), [null], a boolean or a
    string. *)
Inductive Val :=
| Undefined
| Null
| Bool (b : bool)
| Str (s : string).

(** [!v] is [negb (truthy v)]. *)
Definition truthy (v : Val) : bool :=
  match v with
  | Undefined | Null => false
  | Bool b => b
  | Str s => negb (String.eqb s EmptyString)
  end.

(** The conversion a template literal [`${v}`] applies. *)
Definition to_string (v : Val) : string :=
  match v with
  | Undefined => "undefined"
  | Null => "null"
  | Bool true => "true"
  | Bool false => "false"
  | Str s => s
  end.

(** Errors are objects with a [name] and a [message]. *)
Record Error := mkError { name : string; message : string }.

Definition TypeError (msg : string) : Error := mkError "TypeError" msg.
Definition PlainError (msg : string) : Error := mkError "Error" msg.

(** Destructuring [const { k } = obj] of an object used as a map. *)
Definition field (obj : gmap string Val) (k : string) : Val :=
  default Undefined (obj !! k).

(** The character U+0022 (code 34, bits least significant first) and the
    one-character string made of it. *)
Definition dquote_char : ascii :=
  Ascii false true false false false true false false.

Definition dquote : string := String dquote_char EmptyString.

End Js.

(** ** Provider objects (the fields the handlers read) *)

Record Customer := { customer_id : string }.

(** Both [Stripe.PaymentIntent] and [Stripe.SetupIntent] expose a [status]
    and a nullable [client_secret]. *)
Record PaymentIntent :=
  { pi_status : string; pi_client_secret : option string }.

Record SetupIntent :=
  { si_status : string; si_client_secret : option string }.

Record Invoice := { payment_intent : option PaymentIntent }.

Record Subscription := { latest_invoice : option Invoice }.

Record CheckoutSession := { session_url : string }.

(** A verified webhook event: [event.type] and [event.data?.object]. *)
Record Event (Obj : Type) := { ev_type : string; ev_object : option Obj }.
Arguments ev_type {Obj} _.
Arguments ev_object {Obj} _.

(** ** Arguments of the provider calls *)

Record CustomerCreateParams :=
  { cc_email : Js.Val; cc_name : Js.Val; cc_metadata_userId : Js.Val }.

Record SubscriptionCreateParams :=
  { sc_customer : string;
    sc_items : list Js.Val;
    sc_payment_behavior : string;
    sc_save_default_payment_method : string;
    sc_expand : list string;
    sc_metadata_userId : Js.Val;
    sc_metadata_email : Js.Val }.

Record SetupIntentCreateParams :=
  { sic_customer : string;
    sic_payment_method_types : list string;
    sic_metadata_userId : Js.Val }.

Record SessionCreateParams :=
  { ss_mode : string;
    ss_line_items : list (Js.Val * Z);
    ss_customer_email : Js.Val;
    ss_metadata_userId : Js.Val;
    ss_metadata_email : Js.Val;
    ss_trial_end : Z;
    ss_success_url : string;
    ss_cancel_url : string }.

Inductive ApiCall :=
| CustomersSearch (query : string)
| PaymentIntentsSearch (query : string)
| SetupIntentsList (customer : string)
| CustomersCreate (p : CustomerCreateParams)
| SubscriptionsCreate (p : SubscriptionCreateParams)
| SetupIntentsCreate (p : SetupIntentCreateParams)
| CheckoutSessionsCreate (p : SessionCreateParams).

(** ** Observable effects of a handler *)

Inductive Handler :=
| SetupIntentSucceeded
| InvoicePaymentSucceeded
| CustomerSubscriptionCreated.

Inductive Level := Info | Debug | Warn.

(** What [res.send] is given. *)
Inductive Body :=
| Empty
| Text (s : string)
| ClientSecret (clientSecret : option string) (customerId : string)
| CustomerExist (customerExist : string).

Inductive Effect (Obj : Type) :=
| Log (lvl : Level) (msg : string)
| Invoke (h : Handler) (obj : option Obj)
| Next (e : Js.Error)
| Status (code : Z)
| Send (b : Body)
| Redirect (code : Z) (url : string)
| Api (c : ApiCall).
Arguments Log {Obj} _ _.
Arguments Invoke {Obj} _ _.
Arguments Next {Obj} _.
Arguments Status {Obj} _.
Arguments Send {Obj} _.
Arguments Redirect {Obj} _ _.
Arguments Api {Obj} _.

(** ** The monad: state plus JavaScript exceptions *)

Inductive Outcome (A : Type) :=
| Returned (a : A)
| Threw (e : Js.Error).
Arguments Returned {A} _.
Arguments Threw {A} _.

Record World (S Obj : Type) :=
  { provider : S;          (* the payment provider, system of record *)
    clock : Z;             (* Date.now(), in milliseconds *)
    trace : list (Effect Obj) }.
Arguments provider {S Obj} _.
Arguments clock {S Obj} _.
Arguments trace {S Obj} _.
Arguments Build_World {S Obj} _ _ _.

Definition M (S Obj A : Type) : Type := World S Obj -> Outcome A * World S Obj.

Section Monad.
Context {S Obj : Type}.

Definition ret {A} (a : A) : M S Obj A := fun w => (Returned a, w).

Definition throw {A} (e : Js.Error) : M S Obj A := fun w => (Threw e, w).

Definition bind {A B} (m : M S Obj A) (k : A -> M S Obj B) : M S Obj B :=
  fun w =>
    match m w with
    | (Returned a, w') => k a w'
    | (Threw e, w') => (Threw e, w')
    end.

(** [try { m } catch (error) { h error }] *)
Definition try_catch {A} (m : M S Obj A) (h : Js.Error -> M S Obj A)
  : M S Obj A :=
  fun w =>
    match m w with
    | (Returned a, w') => (Returned a, w')
    | (Threw e, w') => h e w'
    end.

Definition emit (e : Effect Obj) : M S Obj unit :=
  fun w => (Returned tt, Build_World (provider w) (clock w) (trace w ++ [e])).

(** A call that reaches the provider: it is recorded, then the provider
    answers or throws and moves to its next state. *)
Definition call {A} (c : ApiCall) (f : S -> Outcome A * S) : M S Obj A :=
  fun w =>
    let (r, s') := f (provider w) in
    (r, Build_World s' (clock w) (trace w ++ [Api c])).

Definition date_now : M S Obj Z := fun w => (Returned (clock w), w).

End Monad.

Declare Scope js_scope.
Delimit Scope js_scope with js.
Notation "'let!' x ':=' m 'in' k" := (bind m (fun x => k))
  (at level 10, x name, m at level 100, k at level 200) : js_scope.
Notation "m '>>;' k" := (bind m (fun _ => k))
  (at level 100, k at level 200, right associativity) : js_scope.
Local Open Scope js_scope.

(** ** What the handlers import: the Stripe client, the event handlers of
    [./StripeEvents] and the configuration *)

Record StripeClient (S Obj : Type) :=
  { (* stripe.webhooks.constructEvent(payload, header, secret) *)
    constructEvent :
      string -> option string -> option string -> Event Obj + Js.Error;
    customers_search : string -> S -> Outcome (list Customer) * S;
    customers_create : CustomerCreateParams -> S -> Outcome Customer * S;
    paymentIntents_search : string -> S -> Outcome (list PaymentIntent) * S;
    setupIntents_list : string -> S -> Outcome (list SetupIntent) * S;
    setupIntents_create :
      SetupIntentCreateParams -> S -> Outcome SetupIntent * S;
    subscriptions_create :
      SubscriptionCreateParams -> S -> Outcome Subscription * S;
    checkout_sessions_create :
      SessionCreateParams -> S -> Outcome CheckoutSession * S }.
Arguments constructEvent {S Obj} _ _ _ _.
Arguments customers_search {S Obj} _ _ _.
Arguments customers_create {S Obj} _ _ _.
Arguments paymentIntents_search {S Obj} _ _ _.
Arguments setupIntents_list {S Obj} _ _ _.
Arguments setupIntents_create {S Obj} _ _ _.
Arguments subscriptions_create {S Obj} _ _ _.
Arguments checkout_sessions_create {S Obj} _ _ _.

(** The three handlers of [stripeEvents]; each receives
    [event.data?.object], may change the provider state and may throw. *)
Record StripeEvents (S Obj : Type) :=
  { setupIntentSucceeded : option Obj -> S -> Outcome unit * S;
    invoicePaymentSucceeded : option Obj -> S -> Outcome unit * S;
    customerSubscriptionCreated : option Obj -> S -> Outcome unit * S }.
Arguments setupIntentSucceeded {S Obj} _ _ _.
Arguments invoicePaymentSucceeded {S Obj} _ _ _.
Arguments customerSubscriptionCreated {S Obj} _ _ _.

Record Config :=
  { clientDomain : string;
    one_week : Z;
    payment_method_types : list string;
    (* process.env.STRIPE_WEBHOOK_SECRET *)
    env_STRIPE_WEBHOOK_SECRET : option string }.

(** ** Requests *)

Record WebhookRequest :=
  { rawBody : string; headers : gmap string string }.

Record Request := { body : gmap string Js.Val }.

(** A [switch] whose every case ends in [break]: the first label equal to
    the scrutinee selects the branch, otherwise [default]. *)
Fixpoint switch {A} (scrutinee : string) (cases : list (string * A))
    (default : A) : A :=
  match cases with
  | [] => default
  | (label, branch) :: rest =>
      if String.eqb scrutinee label then branch
      else switch scrutinee rest default
  end.

(** [Math.round(ms / 1000)] for an integral [ms]: halves round up. *)
Definition round_div_1000 (ms : Z) : Z := (ms + 500) / 1000.

Section Service.
Context {S Obj : Type}.
Variable stripe : StripeClient S Obj.
Variable stripeEvents : StripeEvents S Obj.
Variable config : Config.

Abbreviation Prog := (M S Obj).

(** *** Logger and response object *)

Definition logger_info (msg : string) : Prog unit := emit (Log Info msg).
Definition logger_debug (msg : string) : Prog unit := emit (Log Debug msg).

Definition res_status (code : Z) : Prog unit := emit (Status code).
Definition res_send (b : Body) : Prog unit := emit (Send b).
Definition res_redirect (code : Z) (url : string) : Prog unit :=
  emit (Redirect code url).
Definition next (error : Js.Error) : Prog unit := emit (Next error).

(** Calling one of the [stripeEvents] handlers: the invocation is
    recorded, then the handler runs on the provider state. *)
Definition run_handler (h : Handler) (obj : option Obj) : Prog unit :=
  fun w =>
    let f := match h with
             | SetupIntentSucceeded => setupIntentSucceeded stripeEvents
             | InvoicePaymentSucceeded =>
                 invoicePaymentSucceeded stripeEvents
             | CustomerSubscriptionCreated =>
                 customerSubscriptionCreated stripeEvents
             end in
    let (r, s') := f obj (provider w) in
    (r, Build_World s' (clock w) (trace w ++ [Invoke h obj])).

(** *** The Stripe client's methods as recorded calls *)

Definition call_customers_search (query : string) :=
  call (Obj := Obj) (CustomersSearch query) (customers_search stripe query).
Definition call_customers_create (p : CustomerCreateParams) :=
  call (Obj := Obj) (CustomersCreate p) (customers_create stripe p).
Definition call_paymentIntents_search (query : string) :=
  call (Obj := Obj) (PaymentIntentsSearch query)
    (paymentIntents_search stripe query).
Definition call_setupIntents_list (customer : string) :=
  call (Obj := Obj) (SetupIntentsList customer)
    (setupIntents_list stripe customer).
Definition call_setupIntents_create (p : SetupIntentCreateParams) :=
  call (Obj := Obj) (SetupIntentsCreate p) (setupIntents_create stripe p).
Definition call_subscriptions_create (p : SubscriptionCreateParams) :=
  call (Obj := Obj) (SubscriptionsCreate p) (subscriptions_create stripe p).
Definition call_sessions_create (p : SessionCreateParams) :=
  call (Obj := Obj) (CheckoutSessionsCreate p)
    (checkout_sessions_create stripe p).

(** *** webhook *)

(** The [try] block at the top of [webhook]: the signature header, the raw
    body and the secret are handed to the provider's verifier. *)
Definition verification (req : WebhookRequest) : Event Obj + Js.Error :=
  constructEvent stripe (rawBody req) (headers req !! "stripe-signature")
    (env_STRIPE_WEBHOOK_SECRET config).

Definition webhook (req : WebhookRequest) : Prog unit :=
  match verification req with
  | inr err =>
      res_status 400 >>;
      res_send (Text ("Webhook Error: " +:+ Js.message err))
  | inl event =>
      switch (ev_type event)
        [ ("payment_intent.succeeded", logger_info (ev_type event));
          ("payment_intent.payment_failed", logger_info (ev_type event));
          ("checkout.session.completed", logger_info (ev_type event));
          ("invoice.paid", logger_info (ev_type event));
          ("invoice.payment_failed", logger_info (ev_type event));
          ("setup_intent.succeeded",
            logger_info (ev_type event) >>;
            run_handler SetupIntentSucceeded (ev_object event));
          ("invoice.payment_succeeded",
            logger_info (ev_type event) >>;
            try_catch
              (run_handler InvoicePaymentSucceeded (ev_object event))
              (fun error => next error));
          ("customer.subscription.created",
            logger_info (ev_type event) >>;
            try_catch
              (run_handler CustomerSubscriptionCreated (ev_object event))
              (fun error => next error)) ]
        (logger_debug ("Unhandled event type " +:+ ev_type event)) >>;
      res_send Empty
  end.

(** *** createCheckoutSession *)

Definition createCheckoutSession (req : Request) : Prog unit :=
  let price := Js.field (body req) "price" in
  let email := Js.field (body req) "email" in
  let userId := Js.field (body req) "userId" in
  try_catch
    ((if negb (Js.truthy price) || negb (Js.truthy userId)
      then throw (Js.PlainError
                    "[STRIPE] prices and/or userId were undefined")
      else ret tt) >>;
     let! now := date_now in
     let! session :=
       call_sessions_create
         {| ss_mode := "subscription";
            ss_line_items := [(price, 1)];
            ss_customer_email := email;
            ss_metadata_userId := userId;
            ss_metadata_email := email;
            ss_trial_end := round_div_1000 now + one_week config * 2;
            ss_success_url :=
              clientDomain config
              +:+ "/subscription-success?session_id={CHECKOUT_SESSION_ID}";
            ss_cancel_url := clientDomain config +:+ "/checkout" |} in
     res_redirect 303 (session_url session))
    (fun error => next error).

(** *** createNoTrialSubscription *)

(** [query: `email:"${email}"`] *)
Definition email_query (email : Js.Val) : string :=
  "email:" +:+ Js.dquote +:+ Js.to_string email +:+ Js.dquote.

(** [query: `customer:"${customer.id}"`] *)
Definition customer_query (id : string) : string :=
  "customer:" +:+ Js.dquote +:+ id +:+ Js.dquote.

(** [const [x] = data.length ? data : [null]] *)
Definition first_or_null {A} (data : list A) : option A :=
  match data with
  | [] => None
  | x :: _ => Some x
  end.

(** Reading property [prop] of a value that may be [null]. *)
Definition read_property {A B} (prop : string) (get : A -> B)
    (x : option A) : Prog B :=
  match x with
  | Some a => ret (get a)
  | None =>
      throw (Js.TypeError
               ("Cannot read properties of null (reading '"
                +:+ prop +:+ "')"))
  end.

Definition createNoTrialSubscription (req : Request) : Prog unit :=
  let name := Js.field (body req) "name" in
  let email := Js.field (body req) "email" in
  let userId := Js.field (body req) "userId" in
  let priceId := Js.field (body req) "priceId" in
  try_catch
    (let! customerExists := call_customers_search (email_query email) in
     match customerExists with
     | customer :: _ =>
         let! data :=
           call_paymentIntents_search
             (customer_query (customer_id customer)) in
         let paymentIntent := first_or_null data in
         let! status := read_property "status" pi_status paymentIntent in
         if String.eqb status "requires_payment_method" then
           let! client_secret :=
             read_property "client_secret" pi_client_secret paymentIntent in
           res_send (ClientSecret client_secret (customer_id customer))
         else
           res_send (CustomerExist (customer_id customer))
     | [] =>
         let! customer :=
           call_customers_create
             {| cc_email := email; cc_name := name;
                cc_metadata_userId := userId |} in
         let! subscription :=
           call_subscriptions_create
             {| sc_customer := customer_id customer;
                sc_items := [priceId];
                sc_payment_behavior := "default_incomplete";
                sc_save_default_payment_method := "on_subscription";
                sc_expand := ["latest_invoice.payment_intent"];
                sc_metadata_userId := userId;
                sc_metadata_email := email |} in
         logger_debug "[SUBSCRIPTION]" >>;
         let! invoice_pi :=
           read_property "payment_intent" payment_intent
             (latest_invoice subscription) in
         let! clientSecret :=
           read_property "client_secret" pi_client_secret invoice_pi in
         res_send (ClientSecret clientSecret (customer_id customer))
     end)
    (fun error => next error).

(** *** setupIntent *)

Definition setupIntent (req : Request) : Prog unit :=
  let name := Js.field (body req) "name" in
  let email := Js.field (body req) "email" in
  let userId := Js.field (body req) "userId" in
  try_catch
    (let! customerExists := call_customers_search (email_query email) in
     match customerExists with
     | customer :: _ =>
         let! data := call_setupIntents_list (customer_id customer) in
         let setupIntent := first_or_null data in
         let! status := read_property "status" si_status setupIntent in
         if String.eqb status "requires_payment_method" then
           let! client_secret :=
             read_property "client_secret" si_client_secret setupIntent in
           res_send (ClientSecret client_secret (customer_id customer))
         else
           res_send (CustomerExist (customer_id customer))
     | [] =>
         let! customer :=
           call_customers_create
             {| cc_email := email; cc_name := name;
                cc_metadata_userId := userId |} in
         let! setupIntent :=
           call_setupIntents_create
             {| sic_customer := customer_id customer;
                sic_payment_method_types := payment_method_types config;
                sic_metadata_userId := userId |} in
         logger_debug "[SETUP_INTENT]" >>;
         res_send (ClientSecret (si_client_secret setupIntent)
                     (customer_id customer))
     end)
    (fun error => next error).

(** *** The arguments the handlers pass to the provider, by name *)

Definition checkout_session_params (req : Request) (now : Z)
  : SessionCreateParams :=
  {| ss_mode := "subscription";
     ss_line_items := [(Js.field (body req) "price", 1)];
     ss_customer_email := Js.field (body req) "email";
     ss_metadata_userId := Js.field (body req) "userId";
     ss_metadata_email := Js.field (body req) "email";
     ss_trial_end := round_div_1000 now + one_week config * 2;
     ss_success_url :=
       clientDomain config
       +:+ "/subscription-success?session_id={CHECKOUT_SESSION_ID}";
     ss_cancel_url := clientDomain config +:+ "/checkout" |}.

Definition new_customer_params (req : Request) : CustomerCreateParams :=
  {| cc_email := Js.field (body req) "email";
     cc_name := Js.field (body req) "name";
     cc_metadata_userId := Js.field (body req) "userId" |}.

Definition new_subscription_params (req : Request) (c : Customer)
  : SubscriptionCreateParams :=
  {| sc_customer := customer_id c;
     sc_items := [Js.field (body req) "priceId"];
     sc_payment_behavior := "default_incomplete";
     sc_save_default_payment_method := "on_subscription";
     sc_expand := ["latest_invoice.payment_intent"];
     sc_metadata_userId := Js.field (body req) "userId";
     sc_metadata_email := Js.field (body req) "email" |}.

Definition new_setup_intent_params (req : Request) (c : Customer)
  : SetupIntentCreateParams :=
  {| sic_customer := customer_id c;
     sic_payment_method_types := payment_method_types config;
     sic_metadata_userId := Js.field (body req) "userId" |}.

(** The query of the customer search both handlers start with. *)
Definition search_query (req : Request) : string :=
  email_query (Js.field (body req) "email").

End Service.

(** ** Values the handlers produce, by name *)

(** The error thrown by the guard of [createCheckoutSession]. *)
Abbreviation validation_error :=
  (Js.PlainError "[STRIPE] prices and/or userId were undefined").

(** The error of reading [status] on the [null] that stands for the first
    element of an empty intent list. *)
Abbreviation null_status_error :=
  (Js.TypeError "Cannot read properties of null (reading 'status')").

(** The intent status both find-or-create handlers test for. *)
Abbreviation requires_payment_method := "requires_payment_method".

(** ** Observations on a finished request *)

Section Observations.
Context {S Obj : Type}.

(** A request starts with a fresh response object: nothing observed yet. *)
Definition run {A} (prog : M S Obj A) (s : S) (now : Z)
  : Outcome A * World S Obj :=
  prog (Build_World s now []).

Fixpoint handler_calls (tr : list (Effect Obj))
  : list (Handler * option Obj) :=
  match tr with
  | [] => []
  | Invoke h o :: rest => (h, o) :: handler_calls rest
  | _ :: rest => handler_calls rest
  end.

Fixpoint api_calls (tr : list (Effect Obj)) : list ApiCall :=
  match tr with
  | [] => []
  | Api c :: rest => c :: api_calls rest
  | _ :: rest => api_calls rest
  end.

(** Errors handed to the error-handling middleware with [next(error)]. *)
Fixpoint forwarded (tr : list (Effect Obj)) : list Js.Error :=
  match tr with
  | [] => []
  | Next e :: rest => e :: forwarded rest
  | _ :: rest => forwarded rest
  end.

Fixpoint sent (tr : list (Effect Obj)) : list Body :=
  match tr with
  | [] => []
  | Send b :: rest => b :: sent rest
  | _ :: rest => sent rest
  end.

Fixpoint redirects (tr : list (Effect Obj)) : list (Z * string) :=
  match tr with
  | [] => []
  | Redirect code url :: rest => (code, url) :: redirects rest
  | _ :: rest => redirects rest
  end.

(** The status line of the response: the last [res.status(code)], 200
    when none was set. *)
Fixpoint status_code (tr : list (Effect Obj)) (current : Z) : Z :=
  match tr with
  | [] => current
  | Status code :: rest => status_code rest code
  | _ :: rest => status_code rest current
  end.

Definition is_create (c : ApiCall) : bool :=
  match c with
  | CustomersCreate _ | SubscriptionsCreate _ | SetupIntentsCreate _
  | CheckoutSessionsCreate _ => true
  | _ => false
  end.

(** Provider calls that create something. *)
Definition creations (tr : list (Effect Obj)) : list ApiCall :=
  List.filter is_create (api_calls tr).

(** An error is on the error path of a finished handler when it was given
    to [next], or when it left the handler as an uncaught exception and so
    reached the router that invoked the handler. *)
Definition on_error_path (e : Js.Error) (r : Outcome unit * World S Obj)
  : Prop :=
  In e (forwarded (trace (snd r))) \/ fst r = Threw e.

(** What the find-or-create handlers read of an intent: its status and
    its client secret. *)
Definition pi_shape (p : PaymentIntent) : string * option string :=
  (pi_status p, pi_client_secret p).

Definition si_shape (i : SetupIntent) : string * option string :=
  (si_status i, si_client_secret i).

(** What the caller of a handler receives: the bodies sent and the errors
    given to [next]. *)
Definition reply (tr : list (Effect Obj)) : list Body * list Js.Error :=
  (sent tr, forwarded tr).

(** Occurrences of the character U+0022 in a string. *)
Fixpoint quote_count (s : string) : nat :=
  match s with
  | EmptyString => 0%nat
  | String a rest =>
      ((if Ascii.eqb a Js.dquote_char then 1 else 0) + quote_count rest)%nat
  end.

End Observations.

(** ** A scripted provider, for running the handlers on concrete inputs *)

Module Fixture.

Definition bad_signature : Js.Error :=
  Js.mkError "StripeSignatureVerificationError"
    "No signatures found matching the expected signature for payload".

(** Accepts exactly the header [t=1,v1=ok] under the secret [whsec_test];
    the payload of an accepted request is the event type. *)
Definition verify (payload : string) (header secret : option string)
  : Event string + Js.Error :=
  match header, secret with
  | Some h, Some k =>
      if String.eqb h "t=1,v1=ok" && String.eqb k "whsec_test"
      then inl {| ev_type := payload; ev_object := Some "obj_1" |}
      else inr bad_signature
  | _, _ => inr bad_signature
  end.

Record Script :=
  { found_customers : list Customer;
    found_payment_intents : list PaymentIntent;
    found_setup_intents : list SetupIntent;
    new_customer : Customer;
    new_subscription : Subscription;
    new_setup_intent : SetupIntent;
    new_session : CheckoutSession }.

(** The provider state counts the calls answered so far. *)
Definition client (sc : Script) : StripeClient nat string :=
  {| constructEvent := verify;
     customers_search := fun _ n => (Returned (found_customers sc), Datatypes.S n);
     customers_create := fun _ n => (Returned (new_customer sc), Datatypes.S n);
     paymentIntents_search :=
       fun _ n => (Returned (found_payment_intents sc), Datatypes.S n);
     setupIntents_list :=
       fun _ n => (Returned (found_setup_intents sc), Datatypes.S n);
     setupIntents_create :=
       fun _ n => (Returned (new_setup_intent sc), Datatypes.S n);
     subscriptions_create :=
       fun _ n => (Returned (new_subscription sc), Datatypes.S n);
     checkout_sessions_create :=
       fun _ n => (Returned (new_session sc), Datatypes.S n) |}.

Definition boom : Js.Error := Js.PlainError "handler failed".

(** Handlers that all succeed, and handlers that all throw [boom]. *)
Definition quiet_events : StripeEvents nat string :=
  {| setupIntentSucceeded := fun _ n => (Returned tt, n);
     invoicePaymentSucceeded := fun _ n => (Returned tt, n);
     customerSubscriptionCreated := fun _ n => (Returned tt, n) |}.

Definition failing_events : StripeEvents nat string :=
  {| setupIntentSucceeded := fun _ n => (Threw boom, n);
     invoicePaymentSucceeded := fun _ n => (Threw boom, n);
     customerSubscriptionCreated := fun _ n => (Threw boom, n) |}.

Definition config : Config :=
  {| clientDomain := "http://localhost:4200";
     one_week := 604800;
     payment_method_types := ["card"];
     env_STRIPE_WEBHOOK_SECRET := Some "whsec_test" |}.

Definition signed (payload : string) : WebhookRequest :=
  {| rawBody := payload;
     headers := {[ "stripe-signature" := "t=1,v1=ok" ]} |}.

Definition unsigned (payload : string) : WebhookRequest :=
  {| rawBody := payload; headers := ∅ |}.

Definition pending (secret : string) : PaymentIntent :=
  {| pi_status := "requires_payment_method";
     pi_client_secret := Some secret |}.

Definition succeeded (secret : string) : PaymentIntent :=
  {| pi_status := "succeeded"; pi_client_secret := Some secret |}.

Definition default_script : Script :=
  {| found_customers := [];
     found_payment_intents := [];
     found_setup_intents := [];
     new_customer := {| customer_id := "cus_new" |};
     new_subscription :=
       {| latest_invoice :=
            Some {| payment_intent := Some (pending "pi_new_secret") |} |};
     new_setup_intent :=
       {| si_status := "requires_payment_method";
          si_client_secret := Some "seti_new_secret" |};
     new_session := {| session_url := "https://checkout.stripe.com/c/cs_1" |} |}.

Definition with_customer (pis : list PaymentIntent) (sis : list SetupIntent)
  : Script :=
  {| found_customers := [ {| customer_id := "cus_1" |};
                          {| customer_id := "cus_2" |} ];
     found_payment_intents := pis;
     found_setup_intents := sis;
     new_customer := new_customer default_script;
     new_subscription := new_subscription default_script;
     new_setup_intent := new_setup_intent default_script;
     new_session := new_session default_script |}.

Definition post (members : list (string * Js.Val)) : Request :=
  {| body := list_to_map members |}.

Definition connection_error : Js.Error :=
  Js.mkError "StripeConnectionError"
    "An error occurred with our connection to Stripe.".

(** A provider that cannot be reached: every call throws. *)
Definition outage : StripeClient nat string :=
  {| constructEvent := verify;
     customers_search := fun _ n => (Threw connection_error, n);
     customers_create := fun _ n => (Threw connection_error, n);
     paymentIntents_search := fun _ n => (Threw connection_error, n);
     setupIntents_list := fun _ n => (Threw connection_error, n);
     setupIntents_create := fun _ n => (Threw connection_error, n);
     subscriptions_create := fun _ n => (Threw connection_error, n);
     checkout_sessions_create := fun _ n => (Threw connection_error, n) |}.

(** The request of the specification's end-to-end example. *)
Definition alice : Request :=
  post [ ("name", Js.Str "A"); ("email", Js.Str "a@x.com");
         ("userId", Js.Str "u1"); ("priceId", Js.Str "p1") ].

(** A checkout request for [alice], and one whose [price] is present but
    empty. *)
Definition checkout (price : Js.Val) : Request :=
  post [ ("price", price); ("email", Js.Str "a@x.com");
         ("userId", Js.Str "u1") ].

Definition client0 : StripeClient nat string := client default_script.

End Fixture.


(** ** Further observations *)

Section MoreObservations.
Context {S Obj : Type}.

(** The lines written to the logger, in order. *)
Fixpoint logged (tr : list (Effect Obj)) : list (Level * string) :=
  match tr with
  | [] => []
  | Log lvl msg :: rest => (lvl, msg) :: logged rest
  | _ :: rest => logged rest
  end.

(** How many times a handler answered: bodies sent, redirects issued and
    errors given to [next]. *)
Definition answers (tr : list (Effect Obj)) : nat :=
  (length (sent tr) + length (redirects tr) + length (forwarded tr))%nat.

(** The same client, except that a customer search keeps at most the first
    customer of the provider's answer. *)
Definition first_customer_only (stripe : StripeClient S Obj)
  : StripeClient S Obj :=
  {| constructEvent := constructEvent stripe;
     customers_search :=
       fun query s =>
         match customers_search stripe query s with
         | (Returned found, s') => (Returned (firstn 1 found), s')
         | (Threw e, s') => (Threw e, s')
         end;
     customers_create := customers_create stripe;
     paymentIntents_search := paymentIntents_search stripe;
     setupIntents_list := setupIntents_list stripe;
     setupIntents_create := setupIntents_create stripe;
     subscriptions_create := subscriptions_create stripe;
     checkout_sessions_create := checkout_sessions_create stripe |}.

End MoreObservations.

(** The error a call ended with, if it threw. *)
Definition thrown {A} (o : Outcome A) : list Js.Error :=
  match o with
  | Returned _ => []
  | Threw e => [e]
  end.

(** The event types [webhook] lists in its [switch]: the five it only logs
    and the three it hands to a handler. *)
Definition logged_only_types : list string :=
  [ "payment_intent.succeeded"; "payment_intent.payment_failed";
    "checkout.session.completed"; "invoice.paid"; "invoice.payment_failed" ].

Definition handled_types : list string :=
  [ "setup_intent.succeeded"; "invoice.payment_succeeded";
    "customer.subscription.created" ].

Section WebhookRuns.
Context {S Obj : Type}.
Variable stripe : StripeClient S Obj.
Variable events : StripeEvents S Obj.
Variable config : Config.

(** Every run of [webhook] is one of five shapes. *)
Inductive WebhookRun (req : WebhookRequest) (s : S) (now : Z)
  : Outcome unit * World S Obj -> Prop :=
| RunRejected err :
    verification stripe config req = inr err ->
    WebhookRun req s now
      (Returned tt,
       Build_World s now
         [Status 400; Send (Text ("Webhook Error: " +:+ Js.message err))])
| RunLogged ev lvl msg :
    verification stripe config req = inl ev ->
    ~ In (ev_type ev) handled_types ->
    WebhookRun req s now
      (Returned tt, Build_World s now [Log lvl msg; Send Empty])
| RunHandled ev h s' :
    verification stripe config req = inl ev ->
    WebhookRun req s now
      (Returned tt,
       Build_World s' now
         [Log Info (ev_type ev); Invoke h (ev_object ev); Send Empty])
| RunCaught ev h e s' :
    verification stripe config req = inl ev ->
    h <> SetupIntentSucceeded ->
    WebhookRun req s now
      (Returned tt,
       Build_World s' now
         [Log Info (ev_type ev); Invoke h (ev_object ev); Next e; Send Empty])
| RunThrew ev e s' :
    verification stripe config req = inl ev ->
    ev_type ev = "setup_intent.succeeded" ->
    setupIntentSucceeded events (ev_object ev) s = (Threw e, s') ->
    WebhookRun req s now
      (Threw e,
       Build_World s' now
         [ Log Info (ev_type ev);
           Invoke SetupIntentSucceeded (ev_object ev) ]).

End WebhookRuns.

(** ** The pass-through handlers

    [loadStripe], [loadPrices], [checkoutSubscriptionSuccess],
    [customerPortal] and [createFreeTrialSubscription] use provider methods,
    argument shapes and response bodies of their own; they are modelled over
    their own trace of steps, in the same state-and-exception style. *)

Module Passthrough.

(** *** Provider objects and call arguments *)

Record Price := { price_id : string }.

(** [stripe.checkout.sessions.retrieve] answers a session whose [customer]
    is an id or [null]. *)
Record RetrievedSession := { rs_customer : option string }.

Record PortalSession := { portal_url : string }.

Record PricesListParams :=
  { pl_lookup_keys : list string; pl_expand : list string }.

Record PortalCreateParams :=
  { bp_customer : Js.Val; bp_return_url : string }.

Record TrialSubscriptionParams :=
  { ts_trial_period_days : Z;
    ts_customer : Js.Val;
    ts_default_payment_method : Js.Val;
    ts_items : list Js.Val;
    ts_metadata_userId : Js.Val;
    ts_metadata_email : Js.Val }.

Inductive Call :=
| PricesList (p : PricesListParams)
| SessionsRetrieve (id : Js.Val)
| PortalSessionsCreate (p : PortalCreateParams)
| TrialSubscriptionsCreate (p : TrialSubscriptionParams).

(** What [res.send] is given by these handlers. *)
Inductive Payload :=
| PublishableKey (publishableKey : string)
| Prices (prices : list Price)
| SessionCustomer (customer : option string)
| CreatedSubscription (subscription : Subscription).

Inductive Step :=
| Logged (lvl : Level) (msg : string)
| Forwarded (e : Js.Error)
| Sent (b : Payload)
| Redirected (code : Z) (url : string)
| Called (c : Call).

(** *** The monad *)

Record Exchange (S : Type) := { provider : S; steps : list Step }.
Arguments provider {S} _.
Arguments steps {S} _.
Arguments Build_Exchange {S} _ _.

Definition P (S A : Type) : Type := Exchange S -> Outcome A * Exchange S.

Section Monad.
Context {S : Type}.

Definition ret {A} (a : A) : P S A := fun x => (Returned a, x).

Definition bind {A B} (m : P S A) (k : A -> P S B) : P S B :=
  fun x =>
    match m x with
    | (Returned a, x') => k a x'
    | (Threw e, x') => (Threw e, x')
    end.

Definition try_catch {A} (m : P S A) (h : Js.Error -> P S A) : P S A :=
  fun x =>
    match m x with
    | (Returned a, x') => (Returned a, x')
    | (Threw e, x') => h e x'
    end.

Definition emit (st : Step) : P S unit :=
  fun x => (Returned tt, Build_Exchange (provider x) (steps x ++ [st])).

Definition call {A} (c : Call) (f : S -> Outcome A * S) : P S A :=
  fun x =>
    let (r, s') := f (provider x) in
    (r, Build_Exchange s' (steps x ++ [Called c])).

End Monad.

Declare Scope pass_scope.
Delimit Scope pass_scope with pass.
Notation "'let!' x ':=' m 'in' k" := (bind m (fun x => k))
  (at level 10, x name, m at level 100, k at level 200) : pass_scope.
Notation "m '>>;' k" := (bind m (fun _ => k))
  (at level 100, k at level 200, right associativity) : pass_scope.
Local Open Scope pass_scope.

(** *** What the handlers import *)

(** The provider methods these handlers call.  [subscriptions_create] is the
    method [createNoTrialSubscription] calls too, here with the argument
    shape of a trial subscription. *)
Record StripeClient (S : Type) :=
  { prices_list : PricesListParams -> S -> Outcome (list Price) * S;
    checkout_sessions_retrieve :
      Js.Val -> S -> Outcome RetrievedSession * S;
    billingPortal_sessions_create :
      PortalCreateParams -> S -> Outcome PortalSession * S;
    subscriptions_create :
      TrialSubscriptionParams -> S -> Outcome Subscription * S }.
Arguments prices_list {S} _ _ _.
Arguments checkout_sessions_retrieve {S} _ _ _.
Arguments billingPortal_sessions_create {S} _ _ _.
Arguments subscriptions_create {S} _ _ _.

(** [config.stripe.publishable_key] and [config.stripe.lookup_keys]. *)
Record StripeConfig :=
  { publishable_key : string; lookup_keys : list string }.

Section Handlers.
Context {S : Type}.
Variable stripe : StripeClient S.
Variable config : Config.
Variable config_stripe : StripeConfig.

Abbreviation Prog := (P S).

Definition logger_warn (msg : string) : Prog unit := emit (Logged Warn msg).
Definition logger_debug (msg : string) : Prog unit :=
  emit (Logged Debug msg).
Definition res_send (b : Payload) : Prog unit := emit (Sent b).
Definition res_redirect (code : Z) (url : string) : Prog unit :=
  emit (Redirected code url).
Definition next (error : Js.Error) : Prog unit := emit (Forwarded error).

(** *** loadStripe *)

Definition loadStripe : Prog unit :=
  try_catch
    (res_send (PublishableKey (publishable_key config_stripe)))
    (fun error => next error).

(** *** loadPrices *)

Definition loadPrices : Prog unit :=
  try_catch
    (let! prices :=
       let p := {| pl_lookup_keys := lookup_keys config_stripe;
                   pl_expand := ["data.product"] |} in
       call (PricesList p) (prices_list stripe p) in
     (if Nat.eqb (length prices) 0
      then logger_warn "[STRIPE] prices array is empty"
      else ret tt) >>;
     res_send (Prices prices))
    (fun error => next error).

(** *** checkoutSubscriptionSuccess *)

Definition checkoutSubscriptionSuccess (req : Request) : Prog unit :=
  let sessionId := Js.field (body req) "sessionId" in
  try_catch
    (let! session :=
       call (SessionsRetrieve sessionId)
         (checkout_sessions_retrieve stripe sessionId) in
     res_send (SessionCustomer (rs_customer session)))
    (fun error => next error).

(** *** customerPortal *)

Definition customerPortal (req : Request) : Prog unit :=
  let customer := Js.field (body req) "customer" in
  try_catch
    (let! portalSession :=
       let p := {| bp_customer := customer;
                   bp_return_url :=
                     clientDomain config +:+ "/customer/"
                     +:+ Js.to_string customer |} in
       call (PortalSessionsCreate p) (billingPortal_sessions_create stripe p)
     in
     res_redirect 303 (portal_url portalSession))
    (fun error => next error).

(** *** createFreeTrialSubscription *)

Definition createFreeTrialSubscription (req : Request) : Prog unit :=
  let userId := Js.field (body req) "userId" in
  let email := Js.field (body req) "email" in
  let customerId := Js.field (body req) "customerId" in
  let paymentMethod := Js.field (body req) "paymentMethod" in
  let priceId := Js.field (body req) "priceId" in
  try_catch
    (let! subscription :=
       let p := {| ts_trial_period_days := 14;
                   ts_customer := customerId;
                   ts_default_payment_method := paymentMethod;
                   ts_items := [priceId];
                   ts_metadata_userId := userId;
                   ts_metadata_email := email |} in
       call (TrialSubscriptionsCreate p) (subscriptions_create stripe p) in
     logger_debug "[SUBSCRIPTION]" >>;
     res_send (CreatedSubscription subscription))
    (fun error => next error).

(** *** The arguments the handlers pass to the provider, by name *)

Definition prices_params : PricesListParams :=
  {| pl_lookup_keys := lookup_keys config_stripe;
     pl_expand := ["data.product"] |}.

Definition portal_params (req : Request) : PortalCreateParams :=
  {| bp_customer := Js.field (body req) "customer";
     bp_return_url :=
       clientDomain config +:+ "/customer/"
       +:+ Js.to_string (Js.field (body req) "customer") |}.

Definition trial_params (req : Request) : TrialSubscriptionParams :=
  {| ts_trial_period_days := 14;
     ts_customer := Js.field (body req) "customerId";
     ts_default_payment_method := Js.field (body req) "paymentMethod";
     ts_items := [Js.field (body req) "priceId"];
     ts_metadata_userId := Js.field (body req) "userId";
     ts_metadata_email := Js.field (body req) "email" |}.

End Handlers.

(** *** Observations *)

Definition run {S A} (prog : P S A) (s : S) : Outcome A * Exchange S :=
  prog (Build_Exchange s []).

Fixpoint calls (tr : list Step) : list Call :=
  match tr with
  | [] => []
  | Called c :: rest => c :: calls rest
  | _ :: rest => calls rest
  end.

Fixpoint forwarded (tr : list Step) : list Js.Error :=
  match tr with
  | [] => []
  | Forwarded e :: rest => e :: forwarded rest
  | _ :: rest => forwarded rest
  end.

Fixpoint sent (tr : list Step) : list Payload :=
  match tr with
  | [] => []
  | Sent b :: rest => b :: sent rest
  | _ :: rest => sent rest
  end.

Fixpoint redirects (tr : list Step) : list (Z * string) :=
  match tr with
  | [] => []
  | Redirected code url :: rest => (code, url) :: redirects rest
  | _ :: rest => redirects rest
  end.

Fixpoint warnings (tr : list Step) : list string :=
  match tr with
  | [] => []
  | Logged Warn msg :: rest => msg :: warnings rest
  | _ :: rest => warnings rest
  end.

Definition answers (tr : list Step) : nat :=
  (length (sent tr) + length (redirects tr) + length (forwarded tr))%nat.

End Passthrough.

(** ** The router

    [stripeRoute] registers eight routes, each with one handler. *)

Inductive Method := GET | POST.

Inductive RouteHandler :=
| R_loadStripe
| R_loadPrices
| R_createCheckoutSession
| R_checkoutSubscriptionSuccess
| R_customerPortal
| R_createNoTrialSubscription
| R_createFreeTrialSubscription
| R_setupIntent.

Definition stripeRoute : list (Method * string * RouteHandler) :=
  [ (GET, "/load-stripe", R_loadStripe);
    (GET, "/load-prices", R_loadPrices);
    (POST, "/create-checkout-session", R_createCheckoutSession);
    (POST, "/checkout-subscription-success", R_checkoutSubscriptionSuccess);
    (POST, "/customer-portal", R_customerPortal);
    (POST, "/create-no-trial-subscription", R_createNoTrialSubscription);
    (POST, "/create-free-trial-subscription", R_createFreeTrialSubscription);
    (POST, "/setup-intent", R_setupIntent) ].

(** What is left of a handled request when the kind of body no longer
    matters. *)
Record Served (S : Type) :=
  { outcome : Outcome unit;
    final : S;
    answered : nat;
    provider_calls : nat }.
Arguments outcome {S} _.
Arguments final {S} _.
Arguments answered {S} _.
Arguments provider_calls {S} _.
Arguments Build_Served {S} _ _ _ _.

Section Router.
Context {S Obj : Type}.
Variable stripe : StripeClient S Obj.
Variable stripe_more : Passthrough.StripeClient S.
Variable config : Config.
Variable config_stripe : Passthrough.StripeConfig.

Definition served_gateway (r : Outcome unit * World S Obj) : Served S :=
  {| outcome := fst r;
     final := provider (snd r);
     answered := answers (trace (snd r));
     provider_calls := length (api_calls (trace (snd r))) |}.

Definition served_passthrough (r : Outcome unit * Passthrough.Exchange S)
  : Served S :=
  {| outcome := fst r;
     final := Passthrough.provider (snd r);
     answered := Passthrough.answers (Passthrough.steps (snd r));
     provider_calls :=
       length (Passthrough.calls (Passthrough.steps (snd r))) |}.

(** Running the handler a route names on a request. *)
Definition serve (h : RouteHandler) (req : Request) (s : S) (now : Z)
  : Served S :=
  match h with
  | R_loadStripe =>
      served_passthrough
        (Passthrough.run (Passthrough.loadStripe config_stripe) s)
  | R_loadPrices =>
      served_passthrough
        (Passthrough.run (Passthrough.loadPrices stripe_more config_stripe) s)
  | R_createCheckoutSession =>
      served_gateway (run (createCheckoutSession stripe config req) s now)
  | R_checkoutSubscriptionSuccess =>
      served_passthrough
        (Passthrough.run
           (Passthrough.checkoutSubscriptionSuccess stripe_more req) s)
  | R_customerPortal =>
      served_passthrough
        (Passthrough.run (Passthrough.customerPortal stripe_more config req) s)
  | R_createNoTrialSubscription =>
      served_gateway (run (createNoTrialSubscription stripe req) s now)
  | R_createFreeTrialSubscription =>
      served_passthrough
        (Passthrough.run
           (Passthrough.createFreeTrialSubscription stripe_more req) s)
  | R_setupIntent =>
      served_gateway (run (setupIntent stripe config req) s now)
  end.

(** A request as the router hands it to a handler: [req.body] is an object
    when a body parser ran before the router, [undefined] otherwise. *)
Record Incoming := { incoming_body : option (gmap string Js.Val) }.

(** The first member a handler destructures from [req.body], which it does
    before entering its [try]; [loadStripe] and [loadPrices] do not read the
    request. *)
Definition first_member (h : RouteHandler) : option string :=
  match h with
  | R_loadStripe | R_loadPrices => None
  | R_createCheckoutSession => Some "price"
  | R_checkoutSubscriptionSuccess => Some "sessionId"
  | R_customerPortal => Some "customer"
  | R_createNoTrialSubscription => Some "name"
  | R_createFreeTrialSubscription => Some "userId"
  | R_setupIntent => Some "name"
  end.

(** The [TypeError] of destructuring [undefined]. *)
Definition destructuring_error (member : string) : Js.Error :=
  Js.TypeError
    ("Cannot destructure property '" +:+ member
     +:+ "' of 'req.body' as it is undefined.").

(** Running the handler a route names on a request as it comes in.  A
    handler that destructures an undefined body throws there, outside its
    [try]: nothing was sent, [next] was not called, no provider call made. *)
Definition serve_incoming (h : RouteHandler) (inc : Incoming) (s : S)
    (now : Z) : Served S :=
  match first_member h, incoming_body inc with
  | Some member, None =>
      {| outcome := Threw (destructuring_error member);
         final := s;
         answered := 0;
         provider_calls := 0 |}
  | _, Some members => serve h {| body := members |} s now
  | None, None => serve h {| body := ∅ |} s now
  end.

End Router.

(** ** Scripted providers for the pass-through handlers *)

Module PassFixture.

Definition session_1 : Passthrough.RetrievedSession :=
  {| Passthrough.rs_customer := Some "cus_1" |}.

Definition trial_subscription : Subscription :=
  {| latest_invoice := Some {| payment_intent := None |} |}.

(** A provider that lists the given prices and answers every other call;
    its state counts the calls. *)
Definition client (prices : list Passthrough.Price)
  : Passthrough.StripeClient nat :=
  {| Passthrough.prices_list := fun _ n => (Returned prices, Datatypes.S n);
     Passthrough.checkout_sessions_retrieve :=
       fun _ n => (Returned session_1, Datatypes.S n);
     Passthrough.billingPortal_sessions_create :=
       fun _ n =>
         (Returned
            {| Passthrough.portal_url := "https://billing.stripe.com/p/1" |},
          Datatypes.S n);
     Passthrough.subscriptions_create :=
       fun _ n => (Returned trial_subscription, Datatypes.S n) |}.

(** A provider that cannot be reached. *)
Definition outage : Passthrough.StripeClient nat :=
  {| Passthrough.prices_list :=
       fun _ n => (Threw Fixture.connection_error, n);
     Passthrough.checkout_sessions_retrieve :=
       fun _ n => (Threw Fixture.connection_error, n);
     Passthrough.billingPortal_sessions_create :=
       fun _ n => (Threw Fixture.connection_error, n);
     Passthrough.subscriptions_create :=
       fun _ n => (Threw Fixture.connection_error, n) |}.

Definition config_stripe : Passthrough.StripeConfig :=
  {| Passthrough.publishable_key := "pk_test_1";
     Passthrough.lookup_keys := ["basic"; "pro"] |}.

Definition empty_post : Request := Fixture.post [].

Definition trial_post : Request :=
  Fixture.post
    [ ("userId", Js.Str "u1"); ("email", Js.Str "a@x.com");
      ("customerId", Js.Str "cus_1"); ("paymentMethod", Js.Str "pm_1");
      ("priceId", Js.Str "p1") ].

End PassFixture.

(** ** Scripted providers with a memory *)

Module Scenario.

(** A provider in which creating a customer works and creating a
    subscription does not. *)
Definition subscription_down : StripeClient nat string :=
  {| constructEvent := Fixture.verify;
     customers_search := fun _ n => (Returned [], Datatypes.S n);
     customers_create :=
       fun _ n => (Returned {| customer_id := "cus_new" |}, Datatypes.S n);
     paymentIntents_search := fun _ n => (Returned [], Datatypes.S n);
     setupIntents_list := fun _ n => (Returned [], Datatypes.S n);
     setupIntents_create := fun _ n => (Threw Fixture.connection_error, n);
     subscriptions_create := fun _ n => (Threw Fixture.connection_error, n);
     checkout_sessions_create :=
       fun _ n => (Threw Fixture.connection_error, n) |}.

(** A provider whose new subscription has an invoice without payment
    intent. *)
Definition free_price : Fixture.Script :=
  {| Fixture.found_customers := [];
     Fixture.found_payment_intents := [];
     Fixture.found_setup_intents := [];
     Fixture.new_customer := {| customer_id := "cus_new" |};
     Fixture.new_subscription :=
       {| latest_invoice := Some {| payment_intent := None |} |};
     Fixture.new_setup_intent :=
       Fixture.new_setup_intent Fixture.default_script;
     Fixture.new_session := Fixture.new_session Fixture.default_script |}.

(** A provider that remembers whether the customer was created: the state
    is [true] once [customers.create] has run.  The customer's only payment
    intent is the pending one of the subscription. *)
Definition memory : StripeClient bool string :=
  {| constructEvent := Fixture.verify;
     customers_search :=
       fun _ (known : bool) =>
         (Returned (if known then [ {| customer_id := "cus_new" |} ] else []),
          known);
     customers_create :=
       fun _ _ => (Returned {| customer_id := "cus_new" |}, true);
     paymentIntents_search :=
       fun _ (known : bool) =>
         (Returned (if known then [Fixture.pending "pi_new_secret"] else []),
          known);
     setupIntents_list := fun _ (known : bool) => (Returned [], known);
     setupIntents_create :=
       fun _ (known : bool) =>
         (Returned (Fixture.new_setup_intent Fixture.default_script), known);
     subscriptions_create :=
       fun _ (known : bool) =>
         (Returned (Fixture.new_subscription Fixture.default_script), known);
     checkout_sessions_create :=
       fun _ (known : bool) =>
         (Returned (Fixture.new_session Fixture.default_script), known) |}.

(** Handlers that leave a mark on the provider state: each adds its own
    amount to the counter, the last one then throws. *)
Definition counting_events : StripeEvents nat string :=
  {| setupIntentSucceeded := fun _ n => (Returned tt, (n + 1)%nat);
     invoicePaymentSucceeded := fun _ n => (Returned tt, (n + 10)%nat);
     customerSubscriptionCreated :=
       fun _ n => (Threw Fixture.boom, (n + 100)%nat) |}.

End Scenario.
(** * Properties *)

Example webhook_unsigned_run :
  run (webhook (Fixture.client Fixture.default_script) Fixture.quiet_events
         Fixture.config (Fixture.unsigned "setup_intent.succeeded")) 0%nat 0
  = (Returned tt,
     Build_World 0%nat 0
       [ Status 400;
         Send (Text "Webhook Error: No signatures found matching the expected signature for payload") ]).
Proof. vm_compute. reflexivity. Qed.

Example webhook_signed_run :
  run (webhook (Fixture.client Fixture.default_script) Fixture.failing_events
         Fixture.config (Fixture.signed "invoice.payment_succeeded")) 0%nat 0
  = (Returned tt,
     Build_World 0%nat 0
       [ Log Info "invoice.payment_succeeded";
         Invoke InvoicePaymentSucceeded (Some "obj_1");
         Next Fixture.boom;
         Send Empty ]).
Proof. vm_compute. reflexivity. Qed.

Ltac case_label :=
  match goal with
  | |- context [String.eqb ?t ?l] => destruct (String.eqb_spec t l)
  end.

Section WebhookFacts.
Context {S Obj : Type}.
Variable stripe : StripeClient S Obj.
Variable events : StripeEvents S Obj.
Variable config : Config.

Lemma webhook_rejected req s now err :
  verification stripe config req = inr err ->
  run (webhook stripe events config req) s now
  = (Returned tt,
     Build_World s now
       [Status 400; Send (Text ("Webhook Error: " +:+ Js.message err))]).
Proof.
  unfold webhook, run. intros ->. reflexivity.
Qed.

Lemma webhook_setup_intent req s now ev :
  verification stripe config req = inl ev ->
  ev_type ev = "setup_intent.succeeded" ->
  run (webhook stripe events config req) s now
  = match setupIntentSucceeded events (ev_object ev) s with
    | (Returned _, s') =>
        (Returned tt,
         Build_World s' now
           [ Log Info "setup_intent.succeeded";
             Invoke SetupIntentSucceeded (ev_object ev);
             Send Empty ])
    | (Threw e, s') =>
        (Threw e,
         Build_World s' now
           [ Log Info "setup_intent.succeeded";
             Invoke SetupIntentSucceeded (ev_object ev) ])
    end.
Proof.
  unfold webhook, run. intros -> ->.
  cbn. unfold bind, run_handler, logger_info, emit. cbn.
  destruct (setupIntentSucceeded events (ev_object ev) s) as [[[]|e] s'];
    reflexivity.
Qed.

(** The two branches whose handler call sits in [try]/[catch]: whatever
    the handler does, the acknowledgement is sent. *)
Lemma webhook_invoice_payment req s now ev :
  verification stripe config req = inl ev ->
  ev_type ev = "invoice.payment_succeeded" ->
  run (webhook stripe events config req) s now
  = match invoicePaymentSucceeded events (ev_object ev) s with
    | (Returned _, s') =>
        (Returned tt,
         Build_World s' now
           [ Log Info "invoice.payment_succeeded";
             Invoke InvoicePaymentSucceeded (ev_object ev);
             Send Empty ])
    | (Threw e, s') =>
        (Returned tt,
         Build_World s' now
           [ Log Info "invoice.payment_succeeded";
             Invoke InvoicePaymentSucceeded (ev_object ev);
             Next e;
             Send Empty ])
    end.
Proof.
  unfold webhook, run. intros -> ->.
  cbn. unfold bind, try_catch, run_handler, logger_info, emit. cbn.
  destruct (invoicePaymentSucceeded events (ev_object ev) s)
    as [[[]|e] s']; reflexivity.
Qed.

Lemma webhook_subscription_created req s now ev :
  verification stripe config req = inl ev ->
  ev_type ev = "customer.subscription.created" ->
  run (webhook stripe events config req) s now
  = match customerSubscriptionCreated events (ev_object ev) s with
    | (Returned _, s') =>
        (Returned tt,
         Build_World s' now
           [ Log Info "customer.subscription.created";
             Invoke CustomerSubscriptionCreated (ev_object ev);
             Send Empty ])
    | (Threw e, s') =>
        (Returned tt,
         Build_World s' now
           [ Log Info "customer.subscription.created";
             Invoke CustomerSubscriptionCreated (ev_object ev);
             Next e;
             Send Empty ])
    end.
Proof.
  unfold webhook, run. intros -> ->.
  cbn. unfold bind, try_catch, run_handler, logger_info, emit. cbn.
  destruct (customerSubscriptionCreated events (ev_object ev) s)
    as [[[]|e] s']; reflexivity.
Qed.

(** Every other type, listed in the [switch] or not, only writes one log
    line before the acknowledgement. *)
Lemma webhook_other_type req s now ev :
  verification stripe config req = inl ev ->
  ev_type ev <> "setup_intent.succeeded" ->
  ev_type ev <> "invoice.payment_succeeded" ->
  ev_type ev <> "customer.subscription.created" ->
  exists lvl msg,
    run (webhook stripe events config req) s now
    = (Returned tt, Build_World s now [Log lvl msg; Send Empty]).
Proof.
  unfold webhook, run. intros -> H1 H2 H3.
  cbn [switch].
  repeat (case_label; [ try contradiction; eexists _, _; reflexivity | ]).
  eexists _, _; reflexivity.
Qed.
(** C1.  When verification of the signature fails (the header is wrong or
    absent), [webhook] answers with status 400 and the text
    [Webhook Error: <message>], returns, and invokes none of the three
    handlers; conversely a handler invocation in the trace implies that
    verification produced an event. *)
Theorem webhook_bad_signature_rejected req s now :
  let r := run (webhook stripe events config req) s now in
  (forall err,
      verification stripe config req = inr err ->
      fst r = Returned tt /\
      status_code (trace (snd r)) 200 = 400 /\
      sent (trace (snd r)) = [Text ("Webhook Error: " +:+ Js.message err)] /\
      handler_calls (trace (snd r)) = [] /\
      provider (snd r) = s) /\
  (forall h o,
      In (h, o) (handler_calls (trace (snd r))) ->
      exists ev, verification stripe config req = inl ev).
Proof.
  cbn zeta. split.
  - intros err Herr. rewrite (webhook_rejected _ _ _ _ Herr). cbn.
    repeat split; reflexivity.
  - intros h o Hin.
    destruct (verification stripe config req) as [ev|err] eqn:Hv.
    + exists ev. reflexivity.
    + rewrite (webhook_rejected _ _ _ _ Hv) in Hin. cbn in Hin.
      contradiction.
Qed.

(** C5.  For a verified event of type [setup_intent.succeeded],
    [invoice.payment_succeeded] or [customer.subscription.created], the
    matching handler, and only it, is invoked exactly once on the event's
    object: the one invocation in the trace is its own, and the provider
    state after the request is the state that handler leaves when applied to
    the state before the request.  What the handler returns or throws decides
    the outcome of [webhook] in the first branch and what is given to [next]
    in the other two.  For any other type no handler runs and the provider
    state is untouched. *)
Theorem webhook_dispatches_by_type req s now ev :
  verification stripe config req = inl ev ->
  let r := run (webhook stripe events config req) s now in
  let calls := handler_calls (trace (snd r)) in
  (ev_type ev = "setup_intent.succeeded" ->
   calls = [(SetupIntentSucceeded, ev_object ev)] /\
   fst r = fst (setupIntentSucceeded events (ev_object ev) s) /\
   provider (snd r) = snd (setupIntentSucceeded events (ev_object ev) s)) /\
  (ev_type ev = "invoice.payment_succeeded" ->
   calls = [(InvoicePaymentSucceeded, ev_object ev)] /\
   fst r = Returned tt /\
   forwarded (trace (snd r))
   = thrown (fst (invoicePaymentSucceeded events (ev_object ev) s)) /\
   provider (snd r) = snd (invoicePaymentSucceeded events (ev_object ev) s)) /\
  (ev_type ev = "customer.subscription.created" ->
   calls = [(CustomerSubscriptionCreated, ev_object ev)] /\
   fst r = Returned tt /\
   forwarded (trace (snd r))
   = thrown (fst (customerSubscriptionCreated events (ev_object ev) s)) /\
   provider (snd r)
   = snd (customerSubscriptionCreated events (ev_object ev) s)) /\
  (ev_type ev <> "setup_intent.succeeded" ->
   ev_type ev <> "invoice.payment_succeeded" ->
   ev_type ev <> "customer.subscription.created" ->
   calls = [] /\ fst r = Returned tt /\ provider (snd r) = s).
Proof.
  intros Hv. cbn zeta. repeat apply conj.
  - intros Ht. rewrite (webhook_setup_intent _ _ _ _ Hv Ht).
    destruct (setupIntentSucceeded events (ev_object ev) s) as [[[]|e] s'];
      repeat split; reflexivity.
  - intros Ht. rewrite (webhook_invoice_payment _ _ _ _ Hv Ht).
    destruct (invoicePaymentSucceeded events (ev_object ev) s)
      as [[[]|e] s']; repeat split; reflexivity.
  - intros Ht. rewrite (webhook_subscription_created _ _ _ _ Hv Ht).
    destruct (customerSubscriptionCreated events (ev_object ev) s)
      as [[[]|e] s']; repeat split; reflexivity.
  - intros H1 H2 H3.
    destruct (webhook_other_type req s now ev Hv H1 H2 H3)
      as (lvl & msg & ->).
    repeat split; reflexivity.
Qed.

(** C6.  When the handler selected for a verified event throws [e], the
    error is on the error path of the request: in the
    [invoice.payment_succeeded] and [customer.subscription.created]
    branches it is given to [next]; in the [setup_intent.succeeded] branch,
    which has no [try]/[catch], it leaves [webhook] as an exception and so
    reaches the router that invoked the handler.  A verification failure
    ends the request with no handler invoked. *)
Theorem webhook_handler_failure_surfaced req s now :
  let r := run (webhook stripe events config req) s now in
  (forall ev e s',
      verification stripe config req = inl ev ->
      (ev_type ev = "setup_intent.succeeded" /\
       setupIntentSucceeded events (ev_object ev) s = (Threw e, s')) \/
      (ev_type ev = "invoice.payment_succeeded" /\
       invoicePaymentSucceeded events (ev_object ev) s = (Threw e, s')) \/
      (ev_type ev = "customer.subscription.created" /\
       customerSubscriptionCreated events (ev_object ev) s = (Threw e, s')) ->
      on_error_path e r) /\
  (forall err,
      verification stripe config req = inr err ->
      fst r = Returned tt /\ handler_calls (trace (snd r)) = []).
Proof.
  cbn zeta. split.
  - intros ev e s' Hv [[Ht Hh] | [[Ht Hh] | [Ht Hh]]]; unfold on_error_path.
    + rewrite (webhook_setup_intent _ _ _ _ Hv Ht), Hh. right. reflexivity.
    + rewrite (webhook_invoice_payment _ _ _ _ Hv Ht), Hh. left. cbn. auto.
    + rewrite (webhook_subscription_created _ _ _ _ Hv Ht), Hh. left. cbn.
      auto.
  - intros err Herr. rewrite (webhook_rejected _ _ _ _ Herr). cbn. auto.
Qed.

(** C9.  In the [invoice.payment_succeeded] and
    [customer.subscription.created] branches, a handler that throws [e] has
    [e] passed to [next], after which [webhook] still sends the empty
    acknowledgement with the default status 200 and returns normally. *)
Theorem webhook_acknowledges_after_handler_failure req s now ev e s' :
  verification stripe config req = inl ev ->
  (ev_type ev = "invoice.payment_succeeded" /\
   invoicePaymentSucceeded events (ev_object ev) s = (Threw e, s')) \/
  (ev_type ev = "customer.subscription.created" /\
   customerSubscriptionCreated events (ev_object ev) s = (Threw e, s')) ->
  let r := run (webhook stripe events config req) s now in
  fst r = Returned tt /\
  (exists h,
      trace (snd r)
      = [Log Info (ev_type ev); Invoke h (ev_object ev); Next e; Send Empty]) /\
  forwarded (trace (snd r)) = [e] /\
  sent (trace (snd r)) = [Empty] /\
  status_code (trace (snd r)) 200 = 200.
Proof.
  intros Hv [[Ht Hh] | [Ht Hh]]; cbn zeta.
  - rewrite (webhook_invoice_payment _ _ _ _ Hv Ht), Hh, Ht. cbn.
    repeat split; eauto.
  - rewrite (webhook_subscription_created _ _ _ _ Hv Ht), Hh, Ht. cbn.
    repeat split; eauto.
Qed.

End WebhookFacts.

Ltac unfold_prog :=
  unfold run, try_catch, bind, call_customers_search, call_customers_create,
    call_paymentIntents_search, call_setupIntents_list,
    call_setupIntents_create, call_subscriptions_create,
    call_sessions_create, call, read_property, first_or_null, res_send,
    res_redirect, next, logger_debug, emit, throw, ret, date_now;
  cbn.

Ltac answer H := rewrite H; cbn.

Section GatewayFacts.
Context {S Obj : Type}.
Variable stripe : StripeClient S Obj.
Variable config : Config.

(** *** createCheckoutSession *)

Lemma createCheckoutSession_invalid req s now :
  Js.truthy (Js.field (body req) "price") = false \/
  Js.truthy (Js.field (body req) "userId") = false ->
  run (createCheckoutSession (Obj := Obj) stripe config req) s now
  = (Returned tt, Build_World s now [Next validation_error]).
Proof.
  intros H. unfold createCheckoutSession.
  assert (negb (Js.truthy (Js.field (body req) "price"))
          || negb (Js.truthy (Js.field (body req) "userId")) = true) as ->.
  { destruct H as [-> | ->]; cbn; auto using orb_true_r. }
  reflexivity.
Qed.

Lemma createCheckoutSession_valid req s now sess s' :
  Js.truthy (Js.field (body req) "price") = true ->
  Js.truthy (Js.field (body req) "userId") = true ->
  checkout_sessions_create stripe (checkout_session_params config req now) s
  = (Returned sess, s') ->
  run (createCheckoutSession (Obj := Obj) stripe config req) s now
  = (Returned tt,
     Build_World s' now
       [ Api (CheckoutSessionsCreate (checkout_session_params config req now));
         Redirect 303 (session_url sess) ]).
Proof.
  intros Hp Hu Hcreate. unfold createCheckoutSession.
  rewrite Hp, Hu. unfold_prog.
  unfold checkout_session_params in Hcreate. answer Hcreate. reflexivity.
Qed.

Lemma createCheckoutSession_provider_fails req s now e s' :
  Js.truthy (Js.field (body req) "price") = true ->
  Js.truthy (Js.field (body req) "userId") = true ->
  checkout_sessions_create stripe (checkout_session_params config req now) s
  = (Threw e, s') ->
  run (createCheckoutSession (Obj := Obj) stripe config req) s now
  = (Returned tt,
     Build_World s' now
       [ Api (CheckoutSessionsCreate (checkout_session_params config req now));
         Next e ]).
Proof.
  intros Hp Hu Hcreate. unfold createCheckoutSession.
  rewrite Hp, Hu. unfold_prog.
  unfold checkout_session_params in Hcreate. answer Hcreate. reflexivity.
Qed.

Lemma missing_field_is_falsy (req : Request) (k : string) :
  body req !! k = None -> Js.truthy (Js.field (body req) k) = false.
Proof. unfold Js.field. intros ->. reflexivity. Qed.

(** *** createNoTrialSubscription, branch by branch *)

Lemma noTrial_search_fails req s now e s1 :
  customers_search stripe (search_query req) s = (Threw e, s1) ->
  run (createNoTrialSubscription (Obj := Obj) stripe req) s now
  = (Returned tt,
     Build_World s1 now [Api (CustomersSearch (search_query req)); Next e]).
Proof.
  intros Hs. unfold createNoTrialSubscription. unfold_prog.
  unfold search_query in Hs. answer Hs. reflexivity.
Qed.

Lemma noTrial_resume req s now c rest s1 p more s2 :
  customers_search stripe (search_query req) s = (Returned (c :: rest), s1) ->
  paymentIntents_search stripe (customer_query (customer_id c)) s1
  = (Returned (p :: more), s2) ->
  pi_status p = requires_payment_method ->
  run (createNoTrialSubscription (Obj := Obj) stripe req) s now
  = (Returned tt,
     Build_World s2 now
       [ Api (CustomersSearch (search_query req));
         Api (PaymentIntentsSearch (customer_query (customer_id c)));
         Send (ClientSecret (pi_client_secret p) (customer_id c)) ]).
Proof.
  intros Hs Hp Hst. unfold createNoTrialSubscription. unfold_prog.
  unfold search_query in Hs. answer Hs. answer Hp. answer Hst. reflexivity.
Qed.

Lemma noTrial_exists req s now c rest s1 p more s2 :
  customers_search stripe (search_query req) s = (Returned (c :: rest), s1) ->
  paymentIntents_search stripe (customer_query (customer_id c)) s1
  = (Returned (p :: more), s2) ->
  pi_status p <> requires_payment_method ->
  run (createNoTrialSubscription (Obj := Obj) stripe req) s now
  = (Returned tt,
     Build_World s2 now
       [ Api (CustomersSearch (search_query req));
         Api (PaymentIntentsSearch (customer_query (customer_id c)));
         Send (CustomerExist (customer_id c)) ]).
Proof.
  intros Hs Hp Hst. unfold createNoTrialSubscription. unfold_prog.
  unfold search_query in Hs. answer Hs. answer Hp.
  apply String.eqb_neq in Hst. answer Hst. reflexivity.
Qed.

Lemma noTrial_no_intents req s now c rest s1 s2 :
  customers_search stripe (search_query req) s = (Returned (c :: rest), s1) ->
  paymentIntents_search stripe (customer_query (customer_id c)) s1
  = (Returned [], s2) ->
  run (createNoTrialSubscription (Obj := Obj) stripe req) s now
  = (Returned tt,
     Build_World s2 now
       [ Api (CustomersSearch (search_query req));
         Api (PaymentIntentsSearch (customer_query (customer_id c)));
         Next null_status_error ]).
Proof.
  intros Hs Hp. unfold createNoTrialSubscription. unfold_prog.
  unfold search_query in Hs. answer Hs. answer Hp. reflexivity.
Qed.

Lemma noTrial_create req s now s1 c s2 sub s3 inv p :
  customers_search stripe (search_query req) s = (Returned [], s1) ->
  customers_create stripe (new_customer_params req) s1 = (Returned c, s2) ->
  subscriptions_create stripe (new_subscription_params req c) s2
  = (Returned sub, s3) ->
  latest_invoice sub = Some inv ->
  payment_intent inv = Some p ->
  run (createNoTrialSubscription (Obj := Obj) stripe req) s now
  = (Returned tt,
     Build_World s3 now
       [ Api (CustomersSearch (search_query req));
         Api (CustomersCreate (new_customer_params req));
         Api (SubscriptionsCreate (new_subscription_params req c));
         Log Debug "[SUBSCRIPTION]";
         Send (ClientSecret (pi_client_secret p) (customer_id c)) ]).
Proof.
  intros Hs Hc Hsub Hinv Hpi.
  unfold createNoTrialSubscription. unfold_prog.
  unfold search_query in Hs. answer Hs.
  unfold new_customer_params in Hc. answer Hc.
  unfold new_subscription_params in Hsub. answer Hsub.
  answer Hinv. answer Hpi. reflexivity.
Qed.

(** *** setupIntent, branch by branch *)

Lemma setupIntent_search_fails req s now e s1 :
  customers_search stripe (search_query req) s = (Threw e, s1) ->
  run (setupIntent (Obj := Obj) stripe config req) s now
  = (Returned tt,
     Build_World s1 now [Api (CustomersSearch (search_query req)); Next e]).
Proof.
  intros Hs. unfold setupIntent. unfold_prog.
  unfold search_query in Hs. answer Hs. reflexivity.
Qed.

Lemma setupIntent_resume req s now c rest s1 i more s2 :
  customers_search stripe (search_query req) s = (Returned (c :: rest), s1) ->
  setupIntents_list stripe (customer_id c) s1 = (Returned (i :: more), s2) ->
  si_status i = requires_payment_method ->
  run (setupIntent (Obj := Obj) stripe config req) s now
  = (Returned tt,
     Build_World s2 now
       [ Api (CustomersSearch (search_query req));
         Api (SetupIntentsList (customer_id c));
         Send (ClientSecret (si_client_secret i) (customer_id c)) ]).
Proof.
  intros Hs Hp Hst. unfold setupIntent. unfold_prog.
  unfold search_query in Hs. answer Hs. answer Hp. answer Hst. reflexivity.
Qed.

Lemma setupIntent_exists req s now c rest s1 i more s2 :
  customers_search stripe (search_query req) s = (Returned (c :: rest), s1) ->
  setupIntents_list stripe (customer_id c) s1 = (Returned (i :: more), s2) ->
  si_status i <> requires_payment_method ->
  run (setupIntent (Obj := Obj) stripe config req) s now
  = (Returned tt,
     Build_World s2 now
       [ Api (CustomersSearch (search_query req));
         Api (SetupIntentsList (customer_id c));
         Send (CustomerExist (customer_id c)) ]).
Proof.
  intros Hs Hp Hst. unfold setupIntent. unfold_prog.
  unfold search_query in Hs. answer Hs. answer Hp.
  apply String.eqb_neq in Hst. answer Hst. reflexivity.
Qed.

Lemma setupIntent_no_intents req s now c rest s1 s2 :
  customers_search stripe (search_query req) s = (Returned (c :: rest), s1) ->
  setupIntents_list stripe (customer_id c) s1 = (Returned [], s2) ->
  run (setupIntent (Obj := Obj) stripe config req) s now
  = (Returned tt,
     Build_World s2 now
       [ Api (CustomersSearch (search_query req));
         Api (SetupIntentsList (customer_id c));
         Next null_status_error ]).
Proof.
  intros Hs Hp. unfold setupIntent. unfold_prog.
  unfold search_query in Hs. answer Hs. answer Hp. reflexivity.
Qed.

Lemma setupIntent_create req s now s1 c s2 i s3 :
  customers_search stripe (search_query req) s = (Returned [], s1) ->
  customers_create stripe (new_customer_params req) s1 = (Returned c, s2) ->
  setupIntents_create stripe (new_setup_intent_params config req c) s2
  = (Returned i, s3) ->
  run (setupIntent (Obj := Obj) stripe config req) s now
  = (Returned tt,
     Build_World s3 now
       [ Api (CustomersSearch (search_query req));
         Api (CustomersCreate (new_customer_params req));
         Api (SetupIntentsCreate (new_setup_intent_params config req c));
         Log Debug "[SETUP_INTENT]";
         Send (ClientSecret (si_client_secret i) (customer_id c)) ]).
Proof.
  intros Hs Hc Hi. unfold setupIntent. unfold_prog.
  unfold search_query in Hs. answer Hs.
  unfold new_customer_params in Hc. answer Hc.
  unfold new_setup_intent_params in Hi. answer Hi. reflexivity.
Qed.

(** An existing customer whose intents are all past the requires_payment_method state is
    reported as existing, and nothing is created. *)
Lemma createNoTrialSubscription_customer_exists req s now c rest s1 pis s2 :
  customers_search stripe (search_query req) s = (Returned (c :: rest), s1) ->
  paymentIntents_search stripe (customer_query (customer_id c)) s1
  = (Returned pis, s2) ->
  pis <> [] ->
  Forall (fun p => pi_status p <> requires_payment_method) pis ->
  let r := run (createNoTrialSubscription (Obj := Obj) stripe req) s now in
  reply (trace (snd r)) = ([CustomerExist (customer_id c)], []) /\
  creations (trace (snd r)) = [].
Proof.
  intros Hs Hp Hne Hall. destruct pis as [|p more]; [contradiction|].
  inversion Hall as [|? ? Hst _]; subst. cbn zeta.
  rewrite (noTrial_exists _ _ _ _ _ _ _ _ _ Hs Hp Hst). split; reflexivity.
Qed.

(** C2.  What the handler does on the input the claim singles out: the
    search finds a customer and that customer has no payment intent at all.
    The destructured first element is [null], reading its [status] throws a
    [TypeError], the [catch] block passes it to [next], and no body is sent:
    the reply is not [{customerExist}].  Nothing is created. *)
Theorem createNoTrialSubscription_without_intents_throws
    req s now c rest s1 s2 :
  customers_search stripe (search_query req) s = (Returned (c :: rest), s1) ->
  paymentIntents_search stripe (customer_query (customer_id c)) s1
  = (Returned [], s2) ->
  let r := run (createNoTrialSubscription (Obj := Obj) stripe req) s now in
  sent (trace (snd r)) = [] /\
  forwarded (trace (snd r)) = [null_status_error] /\
  creations (trace (snd r)) = [].
Proof.
  intros Hs Hp. cbn zeta. rewrite (noTrial_no_intents _ _ _ _ _ _ _ Hs Hp).
  repeat split; reflexivity.
Qed.

(** C3 (as amended).  When the search finds a customer and the first payment
    intent the provider returns for that customer is in state
    [requires_payment_method], the handler sends that intent's
    [client_secret] unchanged together with the customer's id, and creates
    no customer, subscription or payment intent. *)
Theorem createNoTrialSubscription_resumes_first_pending_intent
    req s now c rest s1 p more s2 :
  customers_search stripe (search_query req) s = (Returned (c :: rest), s1) ->
  paymentIntents_search stripe (customer_query (customer_id c)) s1
  = (Returned (p :: more), s2) ->
  pi_status p = requires_payment_method ->
  let r := run (createNoTrialSubscription (Obj := Obj) stripe req) s now in
  fst r = Returned tt /\
  reply (trace (snd r))
  = ([ClientSecret (pi_client_secret p) (customer_id c)], []) /\
  creations (trace (snd r)) = [].
Proof.
  intros Hs Hp Hst. cbn zeta.
  rewrite (noTrial_resume _ _ _ _ _ _ _ _ _ Hs Hp Hst).
  repeat split; reflexivity.
Qed.

(** C4 (as amended).  When the customer search returns no customer and the
    two creates return, the handler creates a customer from the request's
    email, name and userId (as metadata), then a subscription for that
    customer with payment behaviour [default_incomplete], makes no other
    provider call and leaves the provider in the state of the subscription
    create.  When the new subscription carries a latest invoice with a
    payment intent, it sends that intent's client secret with the id of the
    customer just created. *)
Theorem createNoTrialSubscription_creates_customer_then_subscription
    req s now s1 c s2 sub s3 :
  customers_search stripe (search_query req) s = (Returned [], s1) ->
  customers_create stripe (new_customer_params req) s1 = (Returned c, s2) ->
  subscriptions_create stripe (new_subscription_params req c) s2
  = (Returned sub, s3) ->
  let r := run (createNoTrialSubscription (Obj := Obj) stripe req) s now in
  fst r = Returned tt /\
  provider (snd r) = s3 /\
  api_calls (trace (snd r))
  = [ CustomersSearch (search_query req);
      CustomersCreate
        {| cc_email := Js.field (body req) "email";
           cc_name := Js.field (body req) "name";
           cc_metadata_userId := Js.field (body req) "userId" |};
      SubscriptionsCreate (new_subscription_params req c) ] /\
  sc_customer (new_subscription_params req c) = customer_id c /\
  sc_payment_behavior (new_subscription_params req c) = "default_incomplete" /\
  (forall inv p,
      latest_invoice sub = Some inv ->
      payment_intent inv = Some p ->
      reply (trace (snd r))
      = ([ClientSecret (pi_client_secret p) (customer_id c)], [])).
Proof.
  intros Hs Hc Hsub. cbn zeta.
  unfold createNoTrialSubscription. unfold_prog.
  unfold search_query in Hs. answer Hs.
  unfold new_customer_params in Hc. answer Hc.
  unfold new_subscription_params in Hsub. answer Hsub.
  destruct (latest_invoice sub) as [[[p|]]|]; cbn;
    repeat apply conj; try reflexivity; intros inv' p' Hinv Hpi;
    try discriminate; injection Hinv as <-; cbn in Hpi;
    first [discriminate | injection Hpi as <-; reflexivity].
Qed.

(** C7 (as amended).  A request whose [price] or [userId] is missing, or
    present but falsy ([null], [false], the empty string), gets the
    validation error passed to [next] and the provider's session-create is
    not called.  When both are truthy, session-create is called once in
    subscription mode, and when it returns a session the response is a 303
    redirect to the session's URL. *)
Theorem createCheckoutSession_validates_price_and_userId req s now :
  let r := run (createCheckoutSession (Obj := Obj) stripe config req) s now in
  let price := Js.field (body req) "price" in
  let userId := Js.field (body req) "userId" in
  (body req !! "price" = None \/ body req !! "userId" = None \/
   Js.truthy price = false \/ Js.truthy userId = false ->
   fst r = Returned tt /\
   forwarded (trace (snd r)) = [validation_error] /\
   api_calls (trace (snd r)) = [] /\
   redirects (trace (snd r)) = []) /\
  (Js.truthy price = true -> Js.truthy userId = true ->
   forall sess s',
     checkout_sessions_create stripe (checkout_session_params config req now) s
     = (Returned sess, s') ->
     fst r = Returned tt /\
     api_calls (trace (snd r))
     = [CheckoutSessionsCreate (checkout_session_params config req now)] /\
     ss_mode (checkout_session_params config req now) = "subscription" /\
     redirects (trace (snd r)) = [(303, session_url sess)] /\
     forwarded (trace (snd r)) = []).
Proof.
  cbn zeta. split.
  - intros H.
    assert (Js.truthy (Js.field (body req) "price") = false \/
            Js.truthy (Js.field (body req) "userId") = false) as Hfalsy.
    { destruct H as [H | [H | [H | H]]];
        auto using missing_field_is_falsy. }
    rewrite (createCheckoutSession_invalid _ _ _ Hfalsy).
    repeat split; reflexivity.
  - intros Hp Hu sess s' Hcreate.
    rewrite (createCheckoutSession_valid _ _ _ _ _ Hp Hu Hcreate).
    repeat split; reflexivity.
Qed.

End GatewayFacts.

(** *** The two find-or-create handlers side by side *)

Ltac split_answer t := destruct t as [[?|?] ?]; cbn.

Ltac split_provider :=
  repeat match goal with
         | |- context [customers_search ?c ?q ?st] =>
             split_answer (customers_search c q st)
         | |- context [customers_create ?c ?q ?st] =>
             split_answer (customers_create c q st)
         | |- context [paymentIntents_search ?c ?q ?st] =>
             split_answer (paymentIntents_search c q st)
         | |- context [setupIntents_list ?c ?q ?st] =>
             split_answer (setupIntents_list c q st)
         | |- context [setupIntents_create ?c ?q ?st] =>
             split_answer (setupIntents_create c q st)
         | |- context [subscriptions_create ?c ?q ?st] =>
             split_answer (subscriptions_create c q st)
         | |- context [String.eqb ?a ?b] => destruct (String.eqb a b); cbn
         | |- context [match ?x with _ => _ end] => is_var x; destruct x; cbn
         | |- context [match ?f ?x with _ => _ end] =>
             is_var x; destruct (f x); cbn
         end.

Section FindOrCreate.
Context {S Obj : Type}.
Variable stripe : StripeClient S Obj.
Variable config : Config.


(** *** The search query *)

Lemma quote_count_app a b :
  quote_count (a +:+ b) = (quote_count a + quote_count b)%nat.
Proof.
  induction a as [|ch a IH]; [reflexivity|].
  change (String ch a +:+ b) with (String ch (a +:+ b)).
  cbn [quote_count]. rewrite IH. lia.
Qed.

Lemma append_assoc (a b c : string) : (a +:+ b) +:+ c = a +:+ (b +:+ c).
Proof.
  induction a as [|ch a IH]; [reflexivity|].
  change (String ch a +:+ b) with (String ch (a +:+ b)).
  change (String ch (a +:+ b) +:+ c) with (String ch ((a +:+ b) +:+ c)).
  change (String ch a +:+ (b +:+ c)) with (String ch (a +:+ (b +:+ c))).
  now rewrite IH.
Qed.

(** C10.  Both handlers start with a customer search whose query is the
    literal concatenation of [email:], a double quote, the request's email
    and a double quote, nothing escaped.  Each double quote of the email is
    therefore a double quote of the query, and an email made of two
    addresses joined by [" OR email:"] yields the query of a disjunction of
    two clauses. *)
Theorem customer_search_query_is_raw_interpolation req s now :
  let query :=
    "email:" +:+ Js.dquote
    +:+ Js.to_string (Js.field (body req) "email") +:+ Js.dquote in
  (exists rest,
      api_calls
        (trace (snd (run (createNoTrialSubscription (Obj := Obj) stripe req)
                       s now)))
      = CustomersSearch query :: rest) /\
  (exists rest,
      api_calls
        (trace (snd (run (setupIntent (Obj := Obj) stripe config req) s now)))
      = CustomersSearch query :: rest) /\
  (forall email : string,
      quote_count (email_query (Js.Str email))
      = (2 + quote_count email)%nat) /\
  (forall a b : string,
      email_query
        (Js.Str (a +:+ Js.dquote +:+ " OR email:" +:+ Js.dquote +:+ b))
      = email_query (Js.Str a) +:+ " OR " +:+ email_query (Js.Str b)).
Proof.
  cbn zeta. repeat apply conj.
  - unfold createNoTrialSubscription. unfold_prog. unfold email_query.
    split_provider; eexists; reflexivity.
  - unfold setupIntent. unfold_prog. unfold email_query.
    split_provider; eexists; reflexivity.
  - intros email. unfold email_query. cbn [Js.to_string].
    rewrite !quote_count_app.
    change (quote_count "email:") with 0%nat.
    change (quote_count Js.dquote) with 1%nat. lia.
  - intros a b. unfold email_query. cbn [Js.to_string].
    rewrite !append_assoc. reflexivity.
Qed.

End FindOrCreate.

(** * The handlers on concrete requests *)

Example dquote_is_code_34 : Js.dquote_char = ascii_of_nat 34.
Proof. reflexivity. Qed.

Example email_query_run :
  quote_count (email_query (Js.Str "a@x.com")) = 2%nat.
Proof. reflexivity. Qed.

(** The end-to-end example of the specification: no customer has the email
    yet. *)
Example createNoTrialSubscription_new_customer_run :
  run (createNoTrialSubscription Fixture.client0 Fixture.alice) 0%nat 0
  = (Returned tt,
     Build_World 3%nat 0
       [ Api (CustomersSearch (search_query Fixture.alice));
         Api (CustomersCreate (new_customer_params Fixture.alice));
         Api (SubscriptionsCreate
                (new_subscription_params Fixture.alice
                   {| customer_id := "cus_new" |}));
         Log Debug "[SUBSCRIPTION]";
         Send (ClientSecret (Some "pi_new_secret") "cus_new") ]).
Proof. vm_compute. reflexivity. Qed.

Lemma webhook_bad_signature_rejected_witness :
  let bad := Fixture.unsigned "setup_intent.succeeded" in
  let good := Fixture.signed "setup_intent.succeeded" in
  let r :=
    run (webhook Fixture.client0 Fixture.quiet_events Fixture.config bad)
      0%nat 0 in
  verification Fixture.client0 Fixture.config bad = inr Fixture.bad_signature /\
  status_code (trace (snd r)) 200 = 400 /\
  handler_calls (trace (snd r)) = [] /\
  exists ev, verification Fixture.client0 Fixture.config good = inl ev.
Proof.
  cbn zeta.
  pose proof (webhook_bad_signature_rejected Fixture.client0
                Fixture.quiet_events Fixture.config
                (Fixture.unsigned "setup_intent.succeeded") 0%nat 0) as Hbad.
  pose proof (webhook_bad_signature_rejected Fixture.client0
                Fixture.quiet_events Fixture.config
                (Fixture.signed "setup_intent.succeeded") 0%nat 0) as Hgood.
  cbn zeta in Hbad, Hgood.
  destruct Hbad as [Hrej _]. destruct Hgood as [_ Honly].
  assert (verification Fixture.client0 Fixture.config
            (Fixture.unsigned "setup_intent.succeeded")
          = inr Fixture.bad_signature) as Hv by (vm_compute; reflexivity).
  destruct (Hrej _ Hv) as (_ & H400 & _ & Hnone & _).
  split; [exact Hv|]. split; [exact H400|]. split; [exact Hnone|].
  apply (Honly SetupIntentSucceeded (Some "obj_1")).
  vm_compute. left. reflexivity.
Defined.

Lemma webhook_dispatches_by_type_witness :
  let r payload :=
    run (webhook Fixture.client0 Scenario.counting_events Fixture.config
           (Fixture.signed payload)) 0%nat 0 in
  let calls payload := handler_calls (trace (snd (r payload))) in
  (calls "setup_intent.succeeded" = [(SetupIntentSucceeded, Some "obj_1")] /\
   provider (snd (r "setup_intent.succeeded")) = 1%nat) /\
  (calls "invoice.payment_succeeded"
   = [(InvoicePaymentSucceeded, Some "obj_1")] /\
   provider (snd (r "invoice.payment_succeeded")) = 10%nat) /\
  (calls "customer.subscription.created"
   = [(CustomerSubscriptionCreated, Some "obj_1")] /\
   forwarded (trace (snd (r "customer.subscription.created")))
   = [Fixture.boom] /\
   provider (snd (r "customer.subscription.created")) = 100%nat) /\
  (calls "invoice.paid" = [] /\ provider (snd (r "invoice.paid")) = 0%nat) /\
  (calls "charge.refunded" = [] /\
   provider (snd (r "charge.refunded")) = 0%nat).
Proof.
  cbn zeta.
  assert (forall payload,
             verification Fixture.client0 Fixture.config
               (Fixture.signed payload)
             = inl {| ev_type := payload; ev_object := Some "obj_1" |}) as Hv
      by (intros payload; vm_compute; reflexivity).
  pose proof (fun payload =>
                webhook_dispatches_by_type Fixture.client0
                  Scenario.counting_events Fixture.config
                  (Fixture.signed payload) 0%nat 0 _ (Hv payload)) as H.
  cbn zeta in H. cbn [ev_type ev_object] in H.
  split.
  { destruct (H "setup_intent.succeeded") as [Hsetup _].
    destruct (Hsetup eq_refl) as (Hc & _ & Hp). split; assumption. }
  split.
  { destruct (H "invoice.payment_succeeded") as (_ & Hinvoice & _).
    destruct (Hinvoice eq_refl) as (Hc & _ & _ & Hp). split; assumption. }
  split.
  { destruct (H "customer.subscription.created") as (_ & _ & Hcreated & _).
    destruct (Hcreated eq_refl) as (Hc & _ & Hf & Hp).
    split; [exact Hc|]. split; assumption. }
  split.
  { destruct (H "invoice.paid") as (_ & _ & _ & Hother).
    destruct Hother as (Hc & _ & Hp); try discriminate. split; assumption. }
  destruct (H "charge.refunded") as (_ & _ & _ & Hother).
  destruct Hother as (Hc & _ & Hp); try discriminate. split; assumption.
Defined.

Lemma webhook_handler_failure_surfaced_witness :
  let r payload :=
    run (webhook Fixture.client0 Fixture.failing_events Fixture.config
           (Fixture.signed payload)) 0%nat 0 in
  on_error_path Fixture.boom (r "setup_intent.succeeded") /\
  on_error_path Fixture.boom (r "invoice.payment_succeeded") /\
  on_error_path Fixture.boom (r "customer.subscription.created") /\
  handler_calls
    (trace (snd (run (webhook Fixture.client0 Fixture.failing_events
                        Fixture.config (Fixture.unsigned "invoice.paid"))
                   0%nat 0)))
  = [].
Proof.
  cbn zeta.
  assert (forall payload,
             verification Fixture.client0 Fixture.config
               (Fixture.signed payload)
             = inl {| ev_type := payload; ev_object := Some "obj_1" |}) as Hv
      by (intros payload; vm_compute; reflexivity).
  pose proof (fun payload =>
                proj1 (webhook_handler_failure_surfaced Fixture.client0
                         Fixture.failing_events Fixture.config
                         (Fixture.signed payload) 0%nat 0)
                  _ Fixture.boom 0%nat (Hv payload)) as H.
  cbn [ev_type ev_object] in H.
  split; [apply H; left; split; reflexivity|].
  split; [apply H; right; left; split; reflexivity|].
  split; [apply H; right; right; split; reflexivity|].
  apply (proj2 (webhook_handler_failure_surfaced Fixture.client0
                  Fixture.failing_events Fixture.config
                  (Fixture.unsigned "invoice.paid") 0%nat 0)
           Fixture.bad_signature).
  vm_compute. reflexivity.
Defined.

Lemma webhook_acknowledges_after_handler_failure_witness :
  let r payload :=
    run (webhook Fixture.client0 Fixture.failing_events Fixture.config
           (Fixture.signed payload)) 0%nat 0 in
  (forwarded (trace (snd (r "invoice.payment_succeeded"))) = [Fixture.boom] /\
   sent (trace (snd (r "invoice.payment_succeeded"))) = [Empty]) /\
  (forwarded (trace (snd (r "customer.subscription.created")))
   = [Fixture.boom] /\
   sent (trace (snd (r "customer.subscription.created"))) = [Empty]).
Proof.
  cbn zeta.
  assert (forall payload,
             verification Fixture.client0 Fixture.config
               (Fixture.signed payload)
             = inl {| ev_type := payload; ev_object := Some "obj_1" |}) as Hv
      by (intros payload; vm_compute; reflexivity).
  pose proof (fun payload =>
                webhook_acknowledges_after_handler_failure Fixture.client0
                  Fixture.failing_events Fixture.config
                  (Fixture.signed payload) 0%nat 0 _ Fixture.boom 0%nat
                  (Hv payload)) as H.
  cbn zeta in H. cbn [ev_type ev_object] in H.
  split.
  - destruct (H "invoice.payment_succeeded") as (_ & _ & Hf & Hs & _);
      [left; split; reflexivity|]. split; assumption.
  - destruct (H "customer.subscription.created") as (_ & _ & Hf & Hs & _);
      [right; split; reflexivity|]. split; assumption.
Defined.

(** A customer created through the setup-intent flow has no payment intent;
    the next no-trial request for the same email ends in [next(error)]. *)
Lemma createNoTrialSubscription_without_intents_throws_witness :
  let r :=
    run (createNoTrialSubscription
           (Fixture.client (Fixture.with_customer [] [])) Fixture.alice)
      0%nat 0 in
  sent (trace (snd r)) = [] /\
  forwarded (trace (snd r))
  = [Js.TypeError "Cannot read properties of null (reading 'status')"] /\
  creations (trace (snd r)) = [].
Proof.
  apply (createNoTrialSubscription_without_intents_throws
           (Fixture.client (Fixture.with_customer [] [])) Fixture.alice
           0%nat 0 {| customer_id := "cus_1" |} [ {| customer_id := "cus_2" |} ]
           1%nat 2%nat); reflexivity.
Defined.

(** C3, as stated, fails: the customer has a payment intent in state
    [requires_payment_method], but it is not the first one returned, and the
    handler replies [{customerExist}] instead of that intent's secret. *)
Lemma createNoTrialSubscription_ignores_later_pending_intent :
  let intents :=
    [Fixture.succeeded "pi_1_secret"; Fixture.pending "pi_2_secret"] in
  let r :=
    run (createNoTrialSubscription
           (Fixture.client (Fixture.with_customer intents [])) Fixture.alice)
      0%nat 0 in
  In (Fixture.pending "pi_2_secret") intents /\
  pi_status (Fixture.pending "pi_2_secret") = "requires_payment_method" /\
  sent (trace (snd r)) = [CustomerExist "cus_1"] /\
  sent (trace (snd r)) <> [ClientSecret (Some "pi_2_secret") "cus_1"].
Proof.
  cbn zeta. split; [right; left; reflexivity|]. split; [reflexivity|].
  split; [vm_compute; reflexivity | vm_compute; discriminate].
Qed.

Lemma createNoTrialSubscription_resumes_first_pending_intent_witness :
  let intents :=
    [Fixture.pending "pi_2_secret"; Fixture.succeeded "pi_1_secret"] in
  let r :=
    run (createNoTrialSubscription
           (Fixture.client (Fixture.with_customer intents [])) Fixture.alice)
      0%nat 0 in
  fst r = Returned tt /\
  reply (trace (snd r)) = ([ClientSecret (Some "pi_2_secret") "cus_1"], []) /\
  creations (trace (snd r)) = [].
Proof.
  apply (createNoTrialSubscription_resumes_first_pending_intent
           (Fixture.client
              (Fixture.with_customer
                 [Fixture.pending "pi_2_secret";
                  Fixture.succeeded "pi_1_secret"] []))
           Fixture.alice 0%nat 0
           {| customer_id := "cus_1" |} [ {| customer_id := "cus_2" |} ]
           1%nat (Fixture.pending "pi_2_secret")
           [Fixture.succeeded "pi_1_secret"] 2%nat); reflexivity.
Defined.

(** C4, as stated, fails: the search finds nobody and both creates return,
    but the new subscription's invoice has no payment intent (a price of
    zero); the handler sends no client secret and a [TypeError] goes to
    [next], after the customer and the subscription were created. *)
Lemma createNoTrialSubscription_free_price_sends_no_secret :
  let r :=
    run (createNoTrialSubscription (Fixture.client Scenario.free_price)
           Fixture.alice) 0%nat 0 in
  api_calls (trace (snd r))
  = [ CustomersSearch (search_query Fixture.alice);
      CustomersCreate (new_customer_params Fixture.alice);
      SubscriptionsCreate
        (new_subscription_params Fixture.alice
           {| customer_id := "cus_new" |}) ] /\
  sent (trace (snd r)) = [] /\
  forwarded (trace (snd r))
  = [Js.TypeError "Cannot read properties of null (reading 'client_secret')"].
Proof. vm_compute. repeat split; reflexivity. Qed.

Lemma createNoTrialSubscription_creates_customer_then_subscription_witness :
  let r := run (createNoTrialSubscription Fixture.client0 Fixture.alice)
             0%nat 0 in
  fst r = Returned tt /\
  provider (snd r) = 3%nat /\
  api_calls (trace (snd r))
  = [ CustomersSearch (search_query Fixture.alice);
      CustomersCreate
        {| cc_email := Js.Str "a@x.com"; cc_name := Js.Str "A";
           cc_metadata_userId := Js.Str "u1" |};
      SubscriptionsCreate
        (new_subscription_params Fixture.alice
           {| customer_id := "cus_new" |}) ] /\
  reply (trace (snd r)) = ([ClientSecret (Some "pi_new_secret") "cus_new"], []).
Proof.
  pose proof (createNoTrialSubscription_creates_customer_then_subscription
                Fixture.client0 Fixture.alice 0%nat 0 1%nat
                {| customer_id := "cus_new" |} 2%nat
                (Fixture.new_subscription Fixture.default_script) 3%nat
                eq_refl eq_refl eq_refl) as H.
  cbn zeta in *. destruct H as (Hret & Hstate & Hcalls & _ & _ & Hreply).
  split; [exact Hret|]. split; [exact Hstate|]. split; [exact Hcalls|].
  apply (Hreply
           {| payment_intent := Some (Fixture.pending "pi_new_secret") |}
           (Fixture.pending "pi_new_secret")); reflexivity.
Defined.

(** C7, as stated, fails: both fields are present in the body, yet the
    empty [price] is rejected and no session is created. *)
Lemma createCheckoutSession_rejects_present_empty_price :
  let req := Fixture.checkout (Js.Str EmptyString) in
  let r := run (createCheckoutSession Fixture.client0 Fixture.config req)
             0%nat 0 in
  body req !! "price" = Some (Js.Str EmptyString) /\
  body req !! "userId" = Some (Js.Str "u1") /\
  api_calls (trace (snd r)) = [] /\
  redirects (trace (snd r)) = [] /\
  forwarded (trace (snd r))
  = [Js.PlainError "[STRIPE] prices and/or userId were undefined"].
Proof. vm_compute. repeat split; reflexivity. Qed.

Lemma createCheckoutSession_validates_price_and_userId_witness :
  let missing := Fixture.post [("price", Js.Str "price_1")] in
  let valid := Fixture.checkout (Js.Str "price_1") in
  let run_on req :=
    run (createCheckoutSession Fixture.client0 Fixture.config req)
      0%nat 1700000000499 in
  (api_calls (trace (snd (run_on missing))) = [] /\
   forwarded (trace (snd (run_on missing)))
   = [Js.PlainError "[STRIPE] prices and/or userId were undefined"]) /\
  (redirects (trace (snd (run_on valid)))
   = [(303, "https://checkout.stripe.com/c/cs_1")] /\
   ss_trial_end
     (checkout_session_params Fixture.config valid 1700000000499)
   = 1701209600).
Proof.
  cbn zeta. split.
  - destruct (proj1 (createCheckoutSession_validates_price_and_userId
                       Fixture.client0 Fixture.config
                       (Fixture.post [("price", Js.Str "price_1")])
                       0%nat 1700000000499))
      as (_ & Hf & Hc & _).
    + right. left. vm_compute. reflexivity.
    + split; assumption.
  - destruct (proj2 (createCheckoutSession_validates_price_and_userId
                       Fixture.client0 Fixture.config
                       (Fixture.checkout (Js.Str "price_1"))
                       0%nat 1700000000499))
      with (sess := Fixture.new_session Fixture.default_script) (s' := 1%nat)
      as (_ & _ & _ & Hr & _).
    + vm_compute. reflexivity.
    + vm_compute. reflexivity.
    + reflexivity.
    + split; [exact Hr | vm_compute; reflexivity].
Defined.



(** * Further properties of the handlers *)

(** ** webhook *)

Section WebhookMore.
Context {S Obj : Type}.
Variable stripe : StripeClient S Obj.
Variable events : StripeEvents S Obj.
Variable config : Config.

(** A verified event of a type without handler: the log line in full. *)
Lemma webhook_other_type_log req s now ev :
  verification stripe config req = inl ev ->
  ~ In (ev_type ev) handled_types ->
  run (webhook stripe events config req) s now
  = (Returned tt,
     Build_World s now
       [ (if existsb (String.eqb (ev_type ev)) logged_only_types
          then Log Info (ev_type ev)
          else Log Debug ("Unhandled event type " +:+ ev_type ev));
         Send Empty ]).
Proof.
  unfold webhook, run. intros -> Hnot.
  cbn [switch existsb logged_only_types].
  do 5 (case_label; [reflexivity | cbn [orb]]).
  do 3 (case_label; [exfalso; apply Hnot; cbn; intuition congruence |]).
  reflexivity.
Qed.

Lemma webhook_run_shape req s now :
  WebhookRun stripe events config req s now
    (run (webhook stripe events config req) s now).
Proof.
  destruct (verification stripe config req) as [ev|err] eqn:Hv.
  2:{ rewrite (webhook_rejected _ _ _ _ _ _ _ Hv). now constructor. }
  destruct (String.eqb_spec (ev_type ev) "setup_intent.succeeded") as [H1|H1].
  { rewrite (webhook_setup_intent _ _ _ _ _ _ _ Hv H1).
    destruct (setupIntentSucceeded events (ev_object ev) s)
      as [[[]|e] s'] eqn:Hh; rewrite <- H1.
    - now apply RunHandled.
    - now apply RunThrew. }
  destruct (String.eqb_spec (ev_type ev) "invoice.payment_succeeded")
    as [H2|H2].
  { rewrite (webhook_invoice_payment _ _ _ _ _ _ _ Hv H2).
    destruct (invoicePaymentSucceeded events (ev_object ev) s)
      as [[[]|e] s']; rewrite <- H2.
    - now apply RunHandled.
    - now apply RunCaught. }
  destruct (String.eqb_spec (ev_type ev) "customer.subscription.created")
    as [H3|H3].
  { rewrite (webhook_subscription_created _ _ _ _ _ _ _ Hv H3).
    destruct (customerSubscriptionCreated events (ev_object ev) s)
      as [[[]|e] s']; rewrite <- H3.
    - now apply RunHandled.
    - now apply RunCaught. }
  assert (~ In (ev_type ev) handled_types) as Hnot.
  { cbn. intros [H|[H|[H|[]]]]; congruence. }
  rewrite (webhook_other_type_log _ _ _ _ Hv Hnot).
  destruct (existsb _ _); now apply RunLogged with (ev := ev).
Qed.

(** X1.  [webhook] lets an exception escape only in one situation: the
    event was verified, its type is [setup_intent.succeeded] and the
    [setupIntentSucceeded] handler threw that exception.  In that run no body
    is sent (the acknowledgement is skipped) and [next] is not called. *)
Theorem webhook_throws_only_from_setup_intent_handler req s now e :
  let r := run (webhook stripe events config req) s now in
  fst r = Threw e ->
  (exists ev s',
      verification stripe config req = inl ev /\
      ev_type ev = "setup_intent.succeeded" /\
      setupIntentSucceeded events (ev_object ev) s = (Threw e, s')) /\
  sent (trace (snd r)) = [] /\
  forwarded (trace (snd r)) = [].
Proof.
  cbn zeta. intros Hthrew.
  destruct (webhook_run_shape req s now) as
    [err Hv | ev lvl msg Hv Hnot | ev h s' Hv | ev h e' s' Hv Hh
    | ev e' s' Hv Ht Hh]; cbn in Hthrew; try discriminate.
  injection Hthrew as ->. cbn. eauto 10.
Qed.

(** X2.  [webhook] itself never calls the provider's API, and when it
    invokes no handler the provider state after the request is the state
    before it. *)
Theorem webhook_makes_no_provider_call req s now :
  let r := run (webhook stripe events config req) s now in
  api_calls (trace (snd r)) = [] /\
  (handler_calls (trace (snd r)) = [] -> provider (snd r) = s).
Proof.
  cbn zeta.
  destruct (webhook_run_shape req s now); cbn; split; auto; discriminate.
Qed.

(** X3.  A run of [webhook] that returns has sent exactly one body: the
    text [Webhook Error: <message>] under status 400 when verification
    failed, the empty acknowledgement under status 200 when it succeeded. *)
Theorem webhook_returning_sends_one_body req s now :
  let r := run (webhook stripe events config req) s now in
  fst r = Returned tt ->
  match verification stripe config req with
  | inr err =>
      sent (trace (snd r)) = [Text ("Webhook Error: " +:+ Js.message err)] /\
      status_code (trace (snd r)) 200 = 400
  | inl _ =>
      sent (trace (snd r)) = [Empty] /\
      status_code (trace (snd r)) 200 = 200
  end.
Proof.
  cbn zeta. intros Hret.
  destruct (webhook_run_shape req s now) as
    [err Hv | ev lvl msg Hv Hnot | ev h s' Hv | ev h e' s' Hv Hh
    | ev e' s' Hv Ht Hh]; rewrite Hv; cbn in *;
    try discriminate; split; reflexivity.
Qed.

(** X4.  A verified event leaves exactly one log line: at level info the
    event type itself when the type is one of the eight the [switch] lists,
    at level debug [Unhandled event type <type>] otherwise.  A rejected
    request is not logged. *)
Theorem webhook_logs_every_verified_event req s now :
  logged (trace (snd (run (webhook stripe events config req) s now)))
  = match verification stripe config req with
    | inr _ => []
    | inl ev =>
        if existsb (String.eqb (ev_type ev))
             (logged_only_types ++ handled_types)
        then [(Info, ev_type ev)]
        else [(Debug, "Unhandled event type " +:+ ev_type ev)]
    end.
Proof.
  destruct (verification stripe config req) as [ev|err] eqn:Hv.
  2:{ rewrite (webhook_rejected _ _ _ _ _ _ _ Hv). reflexivity. }
  rewrite existsb_app.
  destruct (String.eqb_spec (ev_type ev) "setup_intent.succeeded") as [H1|H1].
  { rewrite (webhook_setup_intent _ _ _ _ _ _ _ Hv H1), H1.
    destruct (setupIntentSucceeded events (ev_object ev) s) as [[[]|e] s'];
      reflexivity. }
  destruct (String.eqb_spec (ev_type ev) "invoice.payment_succeeded")
    as [H2|H2].
  { rewrite (webhook_invoice_payment _ _ _ _ _ _ _ Hv H2), H2.
    destruct (invoicePaymentSucceeded events (ev_object ev) s)
      as [[[]|e] s']; reflexivity. }
  destruct (String.eqb_spec (ev_type ev) "customer.subscription.created")
    as [H3|H3].
  { rewrite (webhook_subscription_created _ _ _ _ _ _ _ Hv H3), H3.
    destruct (customerSubscriptionCreated events (ev_object ev) s)
      as [[[]|e] s']; reflexivity. }
  assert (~ In (ev_type ev) handled_types) as Hnot.
  { cbn. intros [H|[H|[H|[]]]]; congruence. }
  rewrite (webhook_other_type_log _ _ _ _ Hv Hnot).
  assert (existsb (String.eqb (ev_type ev)) handled_types = false) as ->.
  { cbn. apply String.eqb_neq in H1, H2, H3. now rewrite H1, H2, H3. }
  rewrite orb_false_r.
  destruct (existsb _ _); reflexivity.
Qed.

End WebhookMore.

(** ** createCheckoutSession, createNoTrialSubscription, setupIntent *)

Section GatewayMore.
Context {S Obj : Type}.
Variable stripe : StripeClient S Obj.
Variable config : Config.

(** X5.  When the provider's session-create throws, [createCheckoutSession]
    passes that error to [next], redirects nowhere, sends nothing and
    returns; the provider was called once. *)
Theorem createCheckoutSession_forwards_provider_error req s now e s' :
  Js.truthy (Js.field (body req) "price") = true ->
  Js.truthy (Js.field (body req) "userId") = true ->
  checkout_sessions_create stripe (checkout_session_params config req now) s
  = (Threw e, s') ->
  let r := run (createCheckoutSession (Obj := Obj) stripe config req) s now in
  fst r = Returned tt /\
  forwarded (trace (snd r)) = [e] /\
  redirects (trace (snd r)) = [] /\
  sent (trace (snd r)) = [] /\
  length (api_calls (trace (snd r))) = 1%nat.
Proof.
  intros Hp Hu Hc. cbn zeta.
  rewrite (createCheckoutSession_provider_fails _ _ _ _ _ _ _ Hp Hu Hc).
  repeat split; reflexivity.
Qed.

(** X6.  Whenever [createCheckoutSession] gets past its guard, it makes
    exactly one provider call, the session create, whatever the provider
    then does, and the [trial_end] of that call is two [one_week]s after the
    request time rounded to the nearest second: less the two weeks and in
    milliseconds, it is within half a second of the clock reading, halves
    rounding up. *)
Theorem checkout_trial_end_is_two_weeks_out req s now :
  Js.truthy (Js.field (body req) "price") = true ->
  Js.truthy (Js.field (body req) "userId") = true ->
  exists p,
    api_calls
      (trace (snd (run (createCheckoutSession (Obj := Obj) stripe config req)
                     s now)))
    = [CheckoutSessionsCreate p] /\
    ss_mode p = "subscription" /\
    now - 500 < 1000 * (ss_trial_end p - one_week config * 2) <= now + 500.
Proof.
  intros Hp Hu. exists (checkout_session_params config req now).
  split; [|split; [reflexivity|]].
  - unfold createCheckoutSession. rewrite Hp, Hu. unfold_prog.
    fold (checkout_session_params config req now).
    destruct (checkout_sessions_create stripe _ s) as [[sess|e] s'];
      reflexivity.
  - cbn. unfold round_div_1000.
    replace ((now + 500) / 1000 + one_week config * 2 - one_week config * 2)
      with ((now + 500) / 1000) by lia.
    pose proof (Z.mul_div_le (now + 500) 1000 ltac:(lia)).
    pose proof (Z.mul_succ_div_gt (now + 500) 1000 ltac:(lia)).
    lia.
Qed.

(** X7.  Once the customer search has found a customer,
    [createNoTrialSubscription] creates nothing, whatever the provider does
    next: it makes exactly one more provider call, the payment-intent search
    for the first customer found, then answers once and returns. *)
Theorem createNoTrialSubscription_never_creates_for_found_customer
    req s now c rest s1 :
  customers_search stripe (search_query req) s = (Returned (c :: rest), s1) ->
  let r := run (createNoTrialSubscription (Obj := Obj) stripe req) s now in
  fst r = Returned tt /\
  api_calls (trace (snd r))
  = [ CustomersSearch (search_query req);
      PaymentIntentsSearch (customer_query (customer_id c)) ] /\
  creations (trace (snd r)) = [] /\
  answers (trace (snd r)) = 1%nat.
Proof.
  intros Hs. cbn zeta. unfold createNoTrialSubscription. unfold_prog.
  unfold search_query in Hs. answer Hs.
  split_provider; repeat split; reflexivity.
Qed.

(** X8.  Both find-or-create handlers read only the first customer of a
    search answer: cutting the answer down to its first customer changes
    nothing in a run, neither the outcome, nor the provider state, nor the
    trace. *)
Theorem find_or_create_reads_first_customer_only req s now :
  run (createNoTrialSubscription (Obj := Obj) (first_customer_only stripe) req)
    s now
  = run (createNoTrialSubscription (Obj := Obj) stripe req) s now /\
  run (setupIntent (Obj := Obj) (first_customer_only stripe) config req) s now
  = run (setupIntent (Obj := Obj) stripe config req) s now.
Proof.
  split.
  - unfold createNoTrialSubscription. unfold_prog.
    destruct (customers_search stripe _ s) as [[[|c rest]|e] s1];
      reflexivity.
  - unfold setupIntent. unfold_prog.
    destruct (customers_search stripe _ s) as [[[|c rest]|e] s1];
      reflexivity.
Qed.

(** X9.  When the customer was created and the subscription create then
    throws, [createNoTrialSubscription] passes the error to [next] and sends
    nothing; the customer creation has happened and no further provider call
    follows it. *)
Theorem createNoTrialSubscription_subscription_failure_leaves_customer
    req s now s1 c s2 e s3 :
  customers_search stripe (search_query req) s = (Returned [], s1) ->
  customers_create stripe (new_customer_params req) s1 = (Returned c, s2) ->
  subscriptions_create stripe (new_subscription_params req c) s2
  = (Threw e, s3) ->
  let r := run (createNoTrialSubscription (Obj := Obj) stripe req) s now in
  fst r = Returned tt /\
  provider (snd r) = s3 /\
  api_calls (trace (snd r))
  = [ CustomersSearch (search_query req);
      CustomersCreate (new_customer_params req);
      SubscriptionsCreate (new_subscription_params req c) ] /\
  forwarded (trace (snd r)) = [e] /\
  sent (trace (snd r)) = [].
Proof.
  intros Hs Hc Hsub. cbn zeta.
  unfold createNoTrialSubscription. unfold_prog.
  unfold search_query in Hs. answer Hs.
  unfold new_customer_params in Hc. answer Hc.
  unfold new_subscription_params in Hsub. answer Hsub.
  repeat split; reflexivity.
Qed.

(** X10.  When the created subscription has no latest invoice, or its
    latest invoice has no payment intent, [createNoTrialSubscription] has
    created the customer and the subscription but replies with no client
    secret: reading the missing object throws a [TypeError], which goes to
    [next]. *)
Theorem createNoTrialSubscription_without_invoice_intent_throws
    req s now s1 c s2 sub s3 :
  customers_search stripe (search_query req) s = (Returned [], s1) ->
  customers_create stripe (new_customer_params req) s1 = (Returned c, s2) ->
  subscriptions_create stripe (new_subscription_params req c) s2
  = (Returned sub, s3) ->
  latest_invoice sub = None \/
  latest_invoice sub = Some {| payment_intent := None |} ->
  let r := run (createNoTrialSubscription (Obj := Obj) stripe req) s now in
  creations (trace (snd r))
  = [ CustomersCreate (new_customer_params req);
      SubscriptionsCreate (new_subscription_params req c) ] /\
  sent (trace (snd r)) = [] /\
  exists prop,
    forwarded (trace (snd r))
    = [Js.TypeError
         ("Cannot read properties of null (reading '" +:+ prop +:+ "')")].
Proof.
  intros Hs Hc Hsub Hnone. cbn zeta.
  unfold createNoTrialSubscription. unfold_prog.
  unfold search_query in Hs. answer Hs.
  unfold new_customer_params in Hc. answer Hc.
  unfold new_subscription_params in Hsub. answer Hsub.
  destruct Hnone as [-> | ->]; cbn; repeat split; eexists; reflexivity.
Qed.

(** X11.  Neither find-or-create handler checks that the body has an email.
    Without one, the search asks for the address [undefined], and when that
    finds nobody a customer is created with an undefined email. *)
Theorem find_or_create_without_email_searches_undefined req s now s1 :
  body req !! "email" = None ->
  let query := "email:" +:+ Js.dquote +:+ "undefined" +:+ Js.dquote in
  customers_search stripe query s = (Returned [], s1) ->
  let created :=
    CustomersCreate
      {| cc_email := Js.Undefined;
         cc_name := Js.field (body req) "name";
         cc_metadata_userId := Js.field (body req) "userId" |} in
  (exists rest,
      api_calls
        (trace (snd (run (createNoTrialSubscription (Obj := Obj) stripe req)
                       s now)))
      = CustomersSearch query :: created :: rest) /\
  (exists rest,
      api_calls
        (trace (snd (run (setupIntent (Obj := Obj) stripe config req) s now)))
      = CustomersSearch query :: created :: rest).
Proof.
  intros Hmissing query Hs created. subst query created.
  assert (Js.field (body req) "email" = Js.Undefined) as Hfield
      by (unfold Js.field; now rewrite Hmissing).
  split.
  - unfold createNoTrialSubscription. unfold_prog. rewrite Hfield.
    unfold email_query. cbn [Js.to_string]. answer Hs.
    split_provider; eexists; reflexivity.
  - unfold setupIntent. unfold_prog. rewrite Hfield.
    unfold email_query. cbn [Js.to_string]. answer Hs.
    split_provider; eexists; reflexivity.
Qed.

(** X12.  [setupIntent] on a customer that exists but has no setup intent:
    the first element of the empty list is [null], reading its [status]
    throws a [TypeError] that goes to [next]; nothing is sent and nothing is
    created. *)
Theorem setupIntent_without_intents_throws req s now c rest s1 s2 :
  customers_search stripe (search_query req) s = (Returned (c :: rest), s1) ->
  setupIntents_list stripe (customer_id c) s1 = (Returned [], s2) ->
  let r := run (setupIntent (Obj := Obj) stripe config req) s now in
  fst r = Returned tt /\
  sent (trace (snd r)) = [] /\
  forwarded (trace (snd r)) = [null_status_error] /\
  creations (trace (snd r)) = [].
Proof.
  intros Hs Hl. cbn zeta.
  rewrite (setupIntent_no_intents _ _ _ _ _ _ _ _ _ Hs Hl).
  repeat split; reflexivity.
Qed.

End GatewayMore.

(** ** The pass-through handlers *)

Ltac unfold_pass :=
  unfold Passthrough.run, Passthrough.try_catch, Passthrough.bind,
    Passthrough.call, Passthrough.res_send, Passthrough.res_redirect,
    Passthrough.next, Passthrough.logger_warn, Passthrough.logger_debug,
    Passthrough.emit, Passthrough.ret;
  cbn.

Section PassthroughFacts.
Context {S : Type}.
Variable stripe : Passthrough.StripeClient S.
Variable config : Config.
Variable config_stripe : Passthrough.StripeConfig.

(** X13.  [loadPrices] sends the provider's list unchanged and passes
    nothing to [next], also when the list is empty; an empty list adds one
    warning to the log, a non-empty list none. *)
Theorem loadPrices_sends_list_and_warns_when_empty s prices s' :
  Passthrough.prices_list stripe (Passthrough.prices_params config_stripe) s
  = (Returned prices, s') ->
  let r := Passthrough.run (Passthrough.loadPrices stripe config_stripe) s in
  fst r = Returned tt /\
  Passthrough.sent (Passthrough.steps (snd r)) = [Passthrough.Prices prices] /\
  Passthrough.forwarded (Passthrough.steps (snd r)) = [] /\
  Passthrough.warnings (Passthrough.steps (snd r))
  = match prices with
    | [] => ["[STRIPE] prices array is empty"]
    | _ :: _ => []
    end.
Proof.
  intros Hlist. cbn zeta. unfold Passthrough.loadPrices. unfold_pass.
  unfold Passthrough.prices_params in Hlist. rewrite Hlist.
  destruct prices; cbn; repeat split; reflexivity.
Qed.

(** X14.  Each of the four pass-through handlers that call the provider
    hands a provider error to [next] as it is, sends nothing, redirects
    nowhere and returns. *)
Theorem passthrough_provider_errors_are_forwarded req s e s' :
  let failed (r : Outcome unit * Passthrough.Exchange S) :=
    fst r = Returned tt /\
    Passthrough.forwarded (Passthrough.steps (snd r)) = [e] /\
    Passthrough.sent (Passthrough.steps (snd r)) = [] /\
    Passthrough.redirects (Passthrough.steps (snd r)) = [] in
  (Passthrough.prices_list stripe (Passthrough.prices_params config_stripe) s
   = (Threw e, s') ->
   failed (Passthrough.run (Passthrough.loadPrices stripe config_stripe) s)) /\
  (Passthrough.checkout_sessions_retrieve stripe
     (Js.field (body req) "sessionId") s
   = (Threw e, s') ->
   failed (Passthrough.run
             (Passthrough.checkoutSubscriptionSuccess stripe req) s)) /\
  (Passthrough.billingPortal_sessions_create stripe
     (Passthrough.portal_params config req) s
   = (Threw e, s') ->
   failed (Passthrough.run (Passthrough.customerPortal stripe config req) s)) /\
  (Passthrough.subscriptions_create stripe (Passthrough.trial_params req) s
   = (Threw e, s') ->
   failed (Passthrough.run
             (Passthrough.createFreeTrialSubscription stripe req) s)).
Proof.
  cbn zeta. repeat apply conj; intros Hcall.
  - unfold Passthrough.loadPrices. unfold_pass.
    unfold Passthrough.prices_params in Hcall. rewrite Hcall.
    repeat split; reflexivity.
  - unfold Passthrough.checkoutSubscriptionSuccess. unfold_pass.
    rewrite Hcall. repeat split; reflexivity.
  - unfold Passthrough.customerPortal. unfold_pass.
    unfold Passthrough.portal_params in Hcall. rewrite Hcall.
    repeat split; reflexivity.
  - unfold Passthrough.createFreeTrialSubscription. unfold_pass.
    unfold Passthrough.trial_params in Hcall. rewrite Hcall.
    repeat split; reflexivity.
Qed.

(** X15.  [customerPortal] checks nothing: for every request it calls the
    provider's portal-session create exactly once, with the [customer]
    member as it came and the return URL [<clientDomain>/customer/<customer>];
    a body without [customer] gives the URL [<clientDomain>/customer/undefined].
    When the provider answers, the response is a 303 redirect to the portal
    session's URL. *)
Theorem customerPortal_calls_provider_unvalidated req s :
  let r := Passthrough.run (Passthrough.customerPortal stripe config req) s in
  Passthrough.calls (Passthrough.steps (snd r))
  = [Passthrough.PortalSessionsCreate (Passthrough.portal_params config req)] /\
  (body req !! "customer" = None ->
   Passthrough.portal_params config req
   = {| Passthrough.bp_customer := Js.Undefined;
        Passthrough.bp_return_url :=
          clientDomain config +:+ "/customer/undefined" |}) /\
  (forall session s',
      Passthrough.billingPortal_sessions_create stripe
        (Passthrough.portal_params config req) s
      = (Returned session, s') ->
      Passthrough.redirects (Passthrough.steps (snd r))
      = [(303, Passthrough.portal_url session)] /\
      Passthrough.forwarded (Passthrough.steps (snd r)) = []).
Proof.
  cbn zeta. repeat apply conj.
  - unfold Passthrough.customerPortal. unfold_pass.
    fold (Passthrough.portal_params config req).
    destruct (Passthrough.billingPortal_sessions_create stripe _ s)
      as [[session|e] s']; reflexivity.
  - intros Hmissing. unfold Passthrough.portal_params, Js.field.
    rewrite Hmissing. reflexivity.
  - intros session s' Hcall.
    unfold Passthrough.customerPortal. unfold_pass.
    unfold Passthrough.portal_params in Hcall. rewrite Hcall.
    split; reflexivity.
Qed.

(** X16.  [createFreeTrialSubscription] makes one provider call for every
    request, a subscription create with a trial of 14 days for the customer
    and payment method of the body; it never searches for or creates a
    customer.  When the provider answers, the subscription is sent back as it
    is. *)
Theorem createFreeTrialSubscription_only_creates_subscription req s :
  let r :=
    Passthrough.run (Passthrough.createFreeTrialSubscription stripe req) s in
  Passthrough.calls (Passthrough.steps (snd r))
  = [Passthrough.TrialSubscriptionsCreate (Passthrough.trial_params req)] /\
  Passthrough.ts_trial_period_days (Passthrough.trial_params req) = 14 /\
  Passthrough.ts_customer (Passthrough.trial_params req)
  = Js.field (body req) "customerId" /\
  Passthrough.ts_default_payment_method (Passthrough.trial_params req)
  = Js.field (body req) "paymentMethod" /\
  (forall subscription s',
      Passthrough.subscriptions_create stripe (Passthrough.trial_params req) s
      = (Returned subscription, s') ->
      Passthrough.sent (Passthrough.steps (snd r))
      = [Passthrough.CreatedSubscription subscription]).
Proof.
  cbn zeta. repeat apply conj; try reflexivity.
  - unfold Passthrough.createFreeTrialSubscription. unfold_pass.
    fold (Passthrough.trial_params req).
    destruct (Passthrough.subscriptions_create stripe _ s)
      as [[subscription|e] s']; reflexivity.
  - intros subscription s' Hcall.
    unfold Passthrough.createFreeTrialSubscription. unfold_pass.
    unfold Passthrough.trial_params in Hcall. rewrite Hcall. reflexivity.
Qed.

End PassthroughFacts.

(** ** The router *)

Section RouterFacts.
Context {S Obj : Type}.
Variable stripe : StripeClient S Obj.
Variable stripe_more : Passthrough.StripeClient S.
Variable config : Config.
Variable config_stripe : Passthrough.StripeConfig.

(** A handler given a parsed body returns, answers exactly once and makes
    at most three provider calls, whatever the provider does. *)
Lemma serve_answers_exactly_once h req s now :
  let r := serve stripe stripe_more config config_stripe h req s now in
  outcome r = Returned tt /\
  answered r = 1%nat /\
  (provider_calls r <= 3)%nat.
Proof.
  cbn zeta.
  destruct h; unfold serve, served_gateway, served_passthrough.
  - unfold Passthrough.loadStripe. unfold_pass. repeat split; lia.
  - unfold Passthrough.loadPrices. unfold_pass.
    destruct (Passthrough.prices_list stripe_more _ s) as [[[|p ps]|e] s'];
      cbn; repeat split; lia.
  - unfold createCheckoutSession.
    destruct (Js.truthy (Js.field (body req) "price"));
      destruct (Js.truthy (Js.field (body req) "userId"));
      unfold_prog; try (repeat split; lia).
    destruct (checkout_sessions_create stripe _ s) as [[sess|e] s'];
      cbn; repeat split; lia.
  - unfold Passthrough.checkoutSubscriptionSuccess. unfold_pass.
    destruct (Passthrough.checkout_sessions_retrieve stripe_more _ s)
      as [[session|e] s']; cbn; repeat split; lia.
  - unfold Passthrough.customerPortal. unfold_pass.
    destruct (Passthrough.billingPortal_sessions_create stripe_more _ s)
      as [[session|e] s']; cbn; repeat split; lia.
  - unfold createNoTrialSubscription. unfold_prog.
    split_provider; repeat split; cbn; lia.
  - unfold Passthrough.createFreeTrialSubscription. unfold_pass.
    destruct (Passthrough.subscriptions_create stripe_more _ s)
      as [[subscription|e] s']; cbn; repeat split; lia.
  - unfold setupIntent. unfold_prog.
    split_provider; repeat split; cbn; lia.
Qed.


End RouterFacts.

(** ** Across requests, and the search query *)

Section Repeat.
Context {S Obj : Type}.
Variable stripe : StripeClient S Obj.

(** X19.  A repeated [createNoTrialSubscription] request resumes the first
    one.  When the first request created the customer and a subscription
    whose payment intent is still pending, and the provider then finds that
    customer and lists that intent first, the second request sends the same
    client secret and customer id as the first and creates nothing. *)
Theorem createNoTrialSubscription_repeat_resumes
    req s now now' s1 c s2 sub s3 inv p rest s4 more s5 :
  customers_search stripe (search_query req) s = (Returned [], s1) ->
  customers_create stripe (new_customer_params req) s1 = (Returned c, s2) ->
  subscriptions_create stripe (new_subscription_params req c) s2
  = (Returned sub, s3) ->
  latest_invoice sub = Some inv ->
  payment_intent inv = Some p ->
  pi_status p = requires_payment_method ->
  customers_search stripe (search_query req) s3
  = (Returned (c :: rest), s4) ->
  paymentIntents_search stripe (customer_query (customer_id c)) s4
  = (Returned (p :: more), s5) ->
  let first := run (createNoTrialSubscription (Obj := Obj) stripe req) s now in
  let second :=
    run (createNoTrialSubscription (Obj := Obj) stripe req)
      (provider (snd first)) now' in
  reply (trace (snd second)) = reply (trace (snd first)) /\
  reply (trace (snd second))
  = ([ClientSecret (pi_client_secret p) (customer_id c)], []) /\
  creations (trace (snd second)) = [].
Proof.
  intros Hs Hc Hsub Hinv Hpi Hst Hs' Hp'. cbn zeta.
  rewrite (noTrial_create _ _ _ _ _ _ _ _ _ _ _ Hs Hc Hsub Hinv Hpi).
  cbn [snd provider].
  rewrite (noTrial_resume _ _ _ _ _ _ _ _ _ _ Hs' Hp' Hst).
  repeat split; reflexivity.
Qed.

End Repeat.

Lemma string_length_append (a b : string) :
  String.length (a +:+ b) = (String.length a + String.length b)%nat.
Proof.
  induction a as [|ch a IH]; [reflexivity|].
  change (String ch a +:+ b) with (String ch (a +:+ b)).
  cbn [String.length]. now rewrite IH.
Qed.

Lemma string_append_cancel_r (a b c : string) :
  a +:+ c = b +:+ c -> a = b.
Proof.
  revert b. induction a as [|x a IH]; intros [|y b] H.
  - reflexivity.
  - apply (f_equal String.length) in H.
    rewrite !string_length_append in H. cbn in H. lia.
  - apply (f_equal String.length) in H.
    rewrite !string_length_append in H. cbn in H. lia.
  - change (String x (a +:+ c) = String y (b +:+ c)) in H.
    injection H as -> H. f_equal. now apply IH.
Qed.

(** X18.  The search query tells email strings apart: two requests whose
    emails are different strings never send the same query. *)
Theorem email_query_distinguishes_strings (a b : string) :
  email_query (Js.Str a) = email_query (Js.Str b) -> a = b.
Proof.
  unfold email_query. cbn [Js.to_string]. intros H.
  apply (string_append_cancel_r a b Js.dquote).
  change ("email:" +:+ Js.dquote +:+ a +:+ Js.dquote)
    with ("email:" +:+ (Js.dquote +:+ (a +:+ Js.dquote))) in H.
  cbn in H. now injection H.
Qed.

(** ** The further properties on concrete requests *)

Lemma webhook_throws_only_from_setup_intent_handler_witness :
  let r :=
    run (webhook Fixture.client0 Fixture.failing_events Fixture.config
           (Fixture.signed "setup_intent.succeeded")) 0%nat 0 in
  fst r = Threw Fixture.boom /\
  sent (trace (snd r)) = [] /\
  forwarded (trace (snd r)) = [].
Proof.
  cbn zeta.
  assert (fst (run (webhook Fixture.client0 Fixture.failing_events
                      Fixture.config
                      (Fixture.signed "setup_intent.succeeded")) 0%nat 0)
          = Threw Fixture.boom) as Hthrew by (vm_compute; reflexivity).
  split; [exact Hthrew|].
  apply (webhook_throws_only_from_setup_intent_handler Fixture.client0
           Fixture.failing_events Fixture.config
           (Fixture.signed "setup_intent.succeeded") 0%nat 0 Fixture.boom
           Hthrew).
Defined.

Lemma webhook_makes_no_provider_call_witness :
  let r :=
    run (webhook Fixture.client0 Fixture.failing_events Fixture.config
           (Fixture.signed "invoice.paid")) 7%nat 0 in
  api_calls (trace (snd r)) = [] /\ provider (snd r) = 7%nat.
Proof.
  cbn zeta.
  destruct (webhook_makes_no_provider_call Fixture.client0
              Fixture.failing_events Fixture.config
              (Fixture.signed "invoice.paid") 7%nat 0) as [Hnone Hsame].
  split; [exact Hnone|]. apply Hsame. vm_compute. reflexivity.
Defined.

Lemma webhook_returning_sends_one_body_witness :
  let served req :=
    run (webhook Fixture.client0 Fixture.quiet_events Fixture.config req)
      0%nat 0 in
  sent (trace (snd (served (Fixture.signed "setup_intent.succeeded"))))
  = [Empty] /\
  status_code (trace (snd (served (Fixture.unsigned "invoice.paid")))) 200
  = 400.
Proof.
  cbn zeta. split.
  - pose proof (webhook_returning_sends_one_body Fixture.client0
                  Fixture.quiet_events Fixture.config
                  (Fixture.signed "setup_intent.succeeded") 0%nat 0) as H.
    cbn zeta in H.
    assert (verification Fixture.client0 Fixture.config
              (Fixture.signed "setup_intent.succeeded")
            = inl {| ev_type := "setup_intent.succeeded";
                     ev_object := Some "obj_1" |}) as Hv
        by (vm_compute; reflexivity).
    rewrite Hv in H. apply H. vm_compute. reflexivity.
  - pose proof (webhook_returning_sends_one_body Fixture.client0
                  Fixture.quiet_events Fixture.config
                  (Fixture.unsigned "invoice.paid") 0%nat 0) as H.
    cbn zeta in H.
    assert (verification Fixture.client0 Fixture.config
              (Fixture.unsigned "invoice.paid")
            = inr Fixture.bad_signature) as Hv by (vm_compute; reflexivity).
    rewrite Hv in H. apply H. vm_compute. reflexivity.
Defined.

Lemma createCheckoutSession_forwards_provider_error_witness :
  let r :=
    run (createCheckoutSession Fixture.outage Fixture.config
           (Fixture.checkout (Js.Str "price_1"))) 0%nat 0 in
  forwarded (trace (snd r)) = [Fixture.connection_error] /\
  redirects (trace (snd r)) = [].
Proof.
  cbn zeta.
  destruct (createCheckoutSession_forwards_provider_error Fixture.outage
              Fixture.config (Fixture.checkout (Js.Str "price_1")) 0%nat 0
              Fixture.connection_error 0%nat)
    as (_ & Hf & Hr & _).
  - vm_compute. reflexivity.
  - vm_compute. reflexivity.
  - reflexivity.
  - split; assumption.
Defined.

Lemma createNoTrialSubscription_never_creates_for_found_customer_witness :
  let r :=
    run (createNoTrialSubscription
           (Fixture.client
              (Fixture.with_customer [Fixture.succeeded "pi_1_secret"] []))
           Fixture.alice) 0%nat 0 in
  creations (trace (snd r)) = [] /\ answers (trace (snd r)) = 1%nat.
Proof.
  cbn zeta.
  destruct (createNoTrialSubscription_never_creates_for_found_customer
              (Fixture.client
                 (Fixture.with_customer [Fixture.succeeded "pi_1_secret"] []))
              Fixture.alice 0%nat 0 {| customer_id := "cus_1" |}
              [ {| customer_id := "cus_2" |} ] 1%nat eq_refl)
    as (_ & _ & Hc & Ha).
  split; assumption.
Defined.

Lemma createNoTrialSubscription_subscription_failure_leaves_customer_witness :
  let r :=
    run (createNoTrialSubscription Scenario.subscription_down Fixture.alice)
      0%nat 0 in
  forwarded (trace (snd r)) = [Fixture.connection_error] /\
  sent (trace (snd r)) = [] /\
  creations (trace (snd r))
  = [ CustomersCreate (new_customer_params Fixture.alice);
      SubscriptionsCreate
        (new_subscription_params Fixture.alice
           {| customer_id := "cus_new" |}) ].
Proof.
  cbn zeta.
  destruct (createNoTrialSubscription_subscription_failure_leaves_customer
              Scenario.subscription_down Fixture.alice 0%nat 0 1%nat
              {| customer_id := "cus_new" |} 2%nat Fixture.connection_error
              2%nat eq_refl eq_refl eq_refl)
    as (_ & _ & Hcalls & Hf & Hs).
  split; [exact Hf|]. split; [exact Hs|].
  unfold creations. rewrite Hcalls. reflexivity.
Defined.

Lemma createNoTrialSubscription_without_invoice_intent_throws_witness :
  let r :=
    run (createNoTrialSubscription (Fixture.client Scenario.free_price)
           Fixture.alice) 0%nat 0 in
  sent (trace (snd r)) = [] /\
  exists prop,
    forwarded (trace (snd r))
    = [Js.TypeError
         ("Cannot read properties of null (reading '" +:+ prop +:+ "')")].
Proof.
  cbn zeta.
  destruct (createNoTrialSubscription_without_invoice_intent_throws
              (Fixture.client Scenario.free_price) Fixture.alice 0%nat 0
              1%nat {| customer_id := "cus_new" |} 2%nat
              (Fixture.new_subscription Scenario.free_price) 3%nat
              eq_refl eq_refl eq_refl (or_intror eq_refl))
    as (_ & Hs & Hf).
  split; assumption.
Defined.

Lemma find_or_create_without_email_searches_undefined_witness :
  exists rest,
    api_calls
      (trace (snd (run (setupIntent Fixture.client0 Fixture.config
                          PassFixture.empty_post) 0%nat 0)))
    = CustomersSearch ("email:" +:+ Js.dquote +:+ "undefined" +:+ Js.dquote)
      :: CustomersCreate
           {| cc_email := Js.Undefined; cc_name := Js.Undefined;
              cc_metadata_userId := Js.Undefined |}
      :: rest.
Proof.
  destruct (find_or_create_without_email_searches_undefined Fixture.client0
              Fixture.config PassFixture.empty_post 0%nat 0 1%nat)
    as [_ H].
  - vm_compute. reflexivity.
  - reflexivity.
  - exact H.
Defined.

Lemma setupIntent_without_intents_throws_witness :
  let r :=
    run (setupIntent (Fixture.client (Fixture.with_customer [] []))
           Fixture.config Fixture.alice) 0%nat 0 in
  sent (trace (snd r)) = [] /\
  forwarded (trace (snd r)) = [null_status_error].
Proof.
  cbn zeta.
  destruct (setupIntent_without_intents_throws
              (Fixture.client (Fixture.with_customer [] [])) Fixture.config
              Fixture.alice 0%nat 0 {| customer_id := "cus_1" |}
              [ {| customer_id := "cus_2" |} ] 1%nat 2%nat eq_refl eq_refl)
    as (_ & Hs & Hf & _).
  split; assumption.
Defined.

Lemma loadPrices_sends_list_and_warns_when_empty_witness :
  let r :=
    Passthrough.run
      (Passthrough.loadPrices (PassFixture.client [])
         PassFixture.config_stripe) 0%nat in
  fst r = Returned tt /\
  Passthrough.sent (Passthrough.steps (snd r)) = [Passthrough.Prices []] /\
  Passthrough.warnings (Passthrough.steps (snd r))
  = ["[STRIPE] prices array is empty"].
Proof.
  cbn zeta.
  destruct (loadPrices_sends_list_and_warns_when_empty
              (PassFixture.client []) PassFixture.config_stripe 0%nat []
              1%nat eq_refl)
    as (Hr & Hs & _ & Hw).
  split; [exact Hr|]. split; assumption.
Defined.

Lemma passthrough_provider_errors_are_forwarded_witness :
  let failed (r : Outcome unit * Passthrough.Exchange nat) :=
    Passthrough.forwarded (Passthrough.steps (snd r))
    = [Fixture.connection_error] in
  failed (Passthrough.run
            (Passthrough.loadPrices PassFixture.outage
               PassFixture.config_stripe) 0%nat) /\
  failed (Passthrough.run
            (Passthrough.checkoutSubscriptionSuccess PassFixture.outage
               PassFixture.empty_post) 0%nat) /\
  failed (Passthrough.run
            (Passthrough.customerPortal PassFixture.outage Fixture.config
               PassFixture.empty_post) 0%nat) /\
  failed (Passthrough.run
            (Passthrough.createFreeTrialSubscription PassFixture.outage
               PassFixture.trial_post) 0%nat).
Proof.
  cbn zeta.
  pose proof (passthrough_provider_errors_are_forwarded PassFixture.outage
                Fixture.config PassFixture.config_stripe
                PassFixture.empty_post 0%nat Fixture.connection_error 0%nat)
    as (H1 & H2 & H3 & _).
  pose proof (passthrough_provider_errors_are_forwarded PassFixture.outage
                Fixture.config PassFixture.config_stripe
                PassFixture.trial_post 0%nat Fixture.connection_error 0%nat)
    as (_ & _ & _ & H4).
  split; [apply H1; reflexivity|].
  split; [apply H2; reflexivity|].
  split; [apply H3; reflexivity | apply H4; reflexivity].
Defined.

Lemma customerPortal_calls_provider_unvalidated_witness :
  let r :=
    Passthrough.run
      (Passthrough.customerPortal (PassFixture.client []) Fixture.config
         PassFixture.empty_post) 0%nat in
  Passthrough.bp_return_url
    (Passthrough.portal_params Fixture.config PassFixture.empty_post)
  = "http://localhost:4200/customer/undefined" /\
  Passthrough.redirects (Passthrough.steps (snd r))
  = [(303, "https://billing.stripe.com/p/1")].
Proof.
  cbn zeta.
  destruct (customerPortal_calls_provider_unvalidated (PassFixture.client [])
              Fixture.config PassFixture.empty_post 0%nat)
    as (_ & Hurl & Hredirect).
  split.
  - rewrite Hurl; [reflexivity | vm_compute; reflexivity].
  - apply (Hredirect
             {| Passthrough.portal_url := "https://billing.stripe.com/p/1" |}
             1%nat).
    reflexivity.
Defined.

Lemma createFreeTrialSubscription_only_creates_subscription_witness :
  Passthrough.sent
    (Passthrough.steps
       (snd (Passthrough.run
               (Passthrough.createFreeTrialSubscription
                  (PassFixture.client []) PassFixture.trial_post) 0%nat)))
  = [Passthrough.CreatedSubscription PassFixture.trial_subscription].
Proof.
  destruct (createFreeTrialSubscription_only_creates_subscription
              (PassFixture.client []) PassFixture.trial_post 0%nat)
    as (_ & _ & _ & _ & Hsent).
  apply (Hsent PassFixture.trial_subscription 1%nat). reflexivity.
Defined.


Lemma email_query_distinguishes_strings_witness :
  email_query (Js.Str "a@x.com") = email_query (Js.Str "a@x.com") /\
  "a@x.com" = "a@x.com".
Proof.
  split; [reflexivity|].
  apply (email_query_distinguishes_strings "a@x.com" "a@x.com"). reflexivity.
Defined.

Lemma createNoTrialSubscription_repeat_resumes_witness :
  let first :=
    run (createNoTrialSubscription Scenario.memory Fixture.alice) false 0 in
  let second :=
    run (createNoTrialSubscription Scenario.memory Fixture.alice)
      (provider (snd first)) 1000 in
  reply (trace (snd second)) = reply (trace (snd first)) /\
  reply (trace (snd second))
  = ([ClientSecret (Some "pi_new_secret") "cus_new"], []) /\
  creations (trace (snd second)) = [].
Proof.
  apply (createNoTrialSubscription_repeat_resumes Scenario.memory
           Fixture.alice false 0 1000 false {| customer_id := "cus_new" |}
           true (Fixture.new_subscription Fixture.default_script) true
           {| payment_intent := Some (Fixture.pending "pi_new_secret") |}
           (Fixture.pending "pi_new_secret") [] true [] true);
    reflexivity.
Defined.

Lemma checkout_trial_end_is_two_weeks_out_witness :
  exists p,
    api_calls
      (trace (snd (run (createCheckoutSession Fixture.outage Fixture.config
                          (Fixture.checkout (Js.Str "price_1")))
                     0%nat 1700000000499)))
    = [CheckoutSessionsCreate p] /\
    ss_trial_end p = 1701209600.
Proof.
  destruct (checkout_trial_end_is_two_weeks_out Fixture.outage Fixture.config
              (Fixture.checkout (Js.Str "price_1")) 0%nat 1700000000499)
    as (p & Hcalls & _ & Hbound).
  - vm_compute. reflexivity.
  - vm_compute. reflexivity.
  - exists p. split; [exact Hcalls|].
    change (one_week Fixture.config) with 604800 in Hbound. lia.
Defined.
